(** * TIE feedback generation: a shallow embedding of
      [client/services/FeedbackGeneratorService.js] and
      [client/domain/ErrorTracebackObjectFactory.js].

    JavaScript strings are modelled by [string], arrays by [list], a value
    that may be [null] by [option], and a [throw] by the [Throw] constructor
    of the [result] type below.  Array indexes and line numbers are
    integers ([Z]); the numbers that only ever get printed ([String(n)])
    are kept abstract together with their printing function. *)

From Stdlib Require Import String Ascii List ZArith Bool Lia.
From Stdlib Require Import DecimalString.
From Stdlib Require DecimalPos.
Import ListNotations.
Open Scope string_scope.
Open Scope Z_scope.

(** ** Exceptions *)

(** What the code can throw: [Error(msg)] built by the code itself, and the
    engine's [TypeError] for a property read on [undefined] or [null]. *)
Inductive exn : Type :=
| Error (message : string)
| TypeError.

Inductive result (A : Type) : Type :=
| Ok (a : A)
| Throw (e : exn).
Arguments Ok {A} a.
Arguments Throw {A} e.

Definition bind {A B : Type} (m : result A) (k : A -> result B) : result B :=
  match m with
  | Ok a => k a
  | Throw e => Throw e
  end.

Notation "x <- m ;; k" := (bind m (fun x => k))
  (at level 61, m at next level, right associativity).

(** The constructor call [Error(message, options)]: the message of the
    error object is its first argument; the second one is an options bag
    and never becomes part of the message. *)
Definition Error2 {A : Type} (message : string) (options : A) : exn :=
  Error message.

(** ** JavaScript string and array primitives *)

Definition tab : ascii := ascii_of_nat 9.
Definition newline : ascii := ascii_of_nat 10.
Definition dquote : ascii := ascii_of_nat 34.

(** [s.replace(/c/g, by)] for a one-character pattern. *)
Fixpoint replace_all (c : ascii) (by_ : string) (s : string) : string :=
  match s with
  | EmptyString => EmptyString
  | String a rest =>
      if Ascii.eqb a c then by_ ++ replace_all c by_ rest
      else String a (replace_all c by_ rest)
  end.

(** [elements.join(sep)] on an array of strings. *)
Fixpoint join (sep : string) (elements : list string) : string :=
  match elements with
  | [] => ""
  | [x] => x
  | x :: rest => x ++ sep ++ join sep rest
  end.

(** [s.startsWith(p)] *)
Definition startsWith (s p : string) : bool := prefix p s.

(** [s.indexOf(p)]: position of the first occurrence, or -1. *)
Definition indexOf (s p : string) : Z :=
  match index 0 p s with
  | Some n => Z.of_nat n
  | None => -1
  end.

(** [arr[i]] for an integer [i]; [None] is [undefined]. *)
Definition at_index {A : Type} (arr : list A) (i : Z) : option A :=
  if i <? 0 then None else nth_error arr (Z.to_nat i).

(** [arr.length] *)
Definition len {A : Type} (arr : list A) : Z := Z.of_nat (length arr).

(** [String(n)] for an integer-valued number.  Integers stand for the
    JavaScript numbers that are integers below 2^53 in magnitude, as line
    numbers and array indexes are; on these the arithmetic and the
    printing of the code are exact. *)
Definition String_of_Z (n : Z) : string :=
  NilZero.string_of_int (Z.to_int n).

Definition is_digit (c : ascii) : bool :=
  let n := nat_of_ascii c in (Nat.leb 48 n && Nat.leb n 57)%bool.

Fixpoint all_digits (s : string) : bool :=
  match s with
  | EmptyString => true
  | String c rest => is_digit c && all_digits rest
  end.

(** [Number(s)] for a string of decimal digits. *)
Definition Number_of_digits (s : string) : Z :=
  (fix go (acc : Z) (s : string) : Z :=
     match s with
     | EmptyString => acc
     | String c rest => go (10 * acc + Z.of_nat (nat_of_ascii c - 48)) rest
     end) 0 s.

(** A string or [null] in a boolean position. *)
Definition truthy (s : option string) : bool :=
  match s with
  | Some (String _ _) => true
  | _ => false
  end.

(** [s.slice(beginIndex, endIndex)]: a negative index counts from the end
    of the string, and both are clamped to the string. *)
Definition slice (s : string) (beginIndex endIndex : Z) : string :=
  let n := Z.of_nat (String.length s) in
  let clamp := fun k => if k <? 0 then Z.max (n + k) 0 else Z.min k n in
  let from := clamp beginIndex in
  let to := clamp endIndex in
  substring (Z.to_nat from) (Z.to_nat (to - from)) s.

Section Tie.

(** JavaScript numbers that the code only prints. *)
Variable number : Type.
Variable String_of_number : number -> string.

(** The injected constant [CODE_EXECUTION_TIMEOUT_SECONDS]. *)
Variable CODE_EXECUTION_TIMEOUT_SECONDS : number.

(** ** JavaScript values *)

(** The values [_jsToHumanReadable] can be handed, by the outcome of its
    [typeof] / [Array.isArray] tests.  An object is given by the entries
    its [for (key in obj)] loop enumerates, in that order. *)
#[local] Unset Elimination Schemes.
Inductive jsval : Type :=
| JNull
| JUndefined
| JStr (s : string)
| JNum (n : number)
| JBool (b : bool)
| JArr (elements : list jsval)
| JObj (entries : list (string * jsval))
| JFunction (name : string)
| JSymbol (description : string)
| JBigInt (n : Z).
#[local] Set Elimination Schemes.

(** ** [_jsToHumanReadable] *)

(** The branch for [typeof jsVariable === 'string']. *)
Definition humanReadableString (s : string) : string :=
  String dquote
    (replace_all newline "\n" (replace_all tab "\t" s) ++ String dquote "").

(** The keys a [for (key in obj)] loop yields are strings, so the call
    [_jsToHumanReadable(key)] of the object branch always ends in the
    string branch; it is written [humanReadableString key] there. *)
Fixpoint _jsToHumanReadable (jsVariable : jsval) : result string :=
  match jsVariable with
  | JNull | JUndefined => Ok "None"
  | JStr s => Ok (humanReadableString s)
  | JNum n => Ok (String_of_number n)
  | JBool b => Ok (if b then "True" else "False")
  | JArr elements =>
      humanReadableElements <-
        (fix map_ (l : list jsval) : result (list string) :=
           match l with
           | [] => Ok []
           | arrayElement :: rest =>
               x <- _jsToHumanReadable arrayElement ;;
               xs <- map_ rest ;;
               Ok (x :: xs)
           end) elements ;;
      Ok ("[" ++ join ", " humanReadableElements ++ "]")
  | JObj entries =>
      humanReadableKeyValuePairs <-
        (fix for_in (l : list (string * jsval)) : result (list string) :=
           match l with
           | [] => Ok []
           | (key, value) :: rest =>
               k <- Ok (humanReadableString key) ;;
               v <- _jsToHumanReadable value ;;
               ps <- for_in rest ;;
               Ok ((k ++ ": " ++ v) :: ps)
           end) entries ;;
      Ok ("{" ++ join ", " humanReadableKeyValuePairs ++ "}")
  | JFunction _ | JSymbol _ | JBigInt _ =>
      Throw (Error2 "Could not make the following object human-readable: "
                    jsVariable)
  end.

(** ** Domain objects *)

Inductive ParagraphType : Type :=
| PARAGRAPH_TYPE_TEXT
| PARAGRAPH_TYPE_CODE
| PARAGRAPH_TYPE_SYNTAX_ERROR.

(** Modelled from the spec: the Feedback value of [FeedbackObjectFactory],
    which is not among the sources: an ordered sequence of paragraphs,
    each with a kind, a completion flag and an optional hint index.  The
    content of a paragraph is what the caller handed over; [None] is
    [undefined], which is what an out-of-range [buggyMessages[hintIndex]]
    evaluates to.  The reinforcement is attached by [getFeedback] only and
    is left out. *)
Record FeedbackParagraph : Type := {
  getType : ParagraphType;
  getContent : option string
}.

Record Feedback : Type := {
  getParagraphs : list FeedbackParagraph;
  isAnswerCorrect : bool;
  getHintIndex : option Z
}.

Definition create (isAnswerCorrect : bool) : Feedback :=
  {| getParagraphs := []; isAnswerCorrect := isAnswerCorrect;
     getHintIndex := None |}.

Definition appendParagraph (type : ParagraphType) (feedback : Feedback)
    (content : option string) : Feedback :=
  {| getParagraphs :=
       getParagraphs feedback
       ++ [{| getType := type; getContent := content |}];
     isAnswerCorrect := isAnswerCorrect feedback;
     getHintIndex := getHintIndex feedback |}.

Definition appendTextParagraph := appendParagraph PARAGRAPH_TYPE_TEXT.
Definition appendCodeParagraph := appendParagraph PARAGRAPH_TYPE_CODE.

Definition setHintIndex (feedback : Feedback) (hintIndex : Z) : Feedback :=
  {| getParagraphs := getParagraphs feedback;
     isAnswerCorrect := isAnswerCorrect feedback;
     getHintIndex := Some hintIndex |}.

(** Modelled from the spec: the test and task objects, whose factories are
    not among the sources.  A buggy-output test owns its ordered hint
    strings; a correctness test owns one input and its allowed outputs and
    passes when the observed output matches any of them; a performance
    test owns the expected performance class. *)
Record BuggyOutputTest : Type := {
  getMessages : list string
}.

Record CorrectnessTest : Type := {
  getInput : jsval;
  getAllowedOutputs : list jsval
}.

Record PerformanceTest : Type := {
  getExpectedPerformance : string
}.

Record Task : Type := {
  getBuggyOutputTests : list BuggyOutputTest;
  getCorrectnessTests : list CorrectnessTest;
  getPerformanceTests : list PerformanceTest;
  getOutputFunctionNameWithoutClass : option string
}.

(** How one allowed output is compared with an observed output, and which
    allowed output a correctness test shows as its example. *)
Variable outputsMatch : jsval -> jsval -> bool.
Variable getAnyAllowedOutput : CorrectnessTest -> jsval.

Definition matchesOutput (test : CorrectnessTest) (output : jsval) : bool :=
  existsb (fun allowedOutput => outputsMatch allowedOutput output)
          (getAllowedOutputs test).

(** Modelled from the spec: the evaluation result and the snapshot of the
    transcript, whose factories are not among the sources.  The test
    results are arrays of arrays, one row per task. *)
Record CodeEvalResult : Type := {
  getErrorString : option string;
  getErrorInput : jsval;
  getPreprocessedCode : string;
  getBuggyOutputTestResults : list (list bool);
  getCorrectnessTestResults : list (list jsval);
  getPerformanceTestResults : list (list string)
}.

Record Snapshot : Type := {
  Snapshot_getCodeEvalResult : option CodeEvalResult;
  Snapshot_getFeedback : Feedback
}.

Definition option_string_eqb (a b : option string) : bool :=
  match a, b with
  | Some x, Some y => String.eqb x y
  | None, None => true
  | _, _ => false
  end.

(** ** [_getBuggyOutputTestFeedback] *)

(** [lastSnapshot] is what
    [TranscriptService.getTranscript().getMostRecentSnapshot()] returns. *)
Definition _getBuggyOutputTestFeedback (lastSnapshot : option Snapshot)
    (failingTest : BuggyOutputTest) (codeEvalResult : CodeEvalResult)
    : result Feedback :=
  let buggyMessages := getMessages failingTest in
  hintIndex <-
    match lastSnapshot with
    | None => Ok 0
    | Some snapshot =>
        match Snapshot_getCodeEvalResult snapshot with
        | None => Ok 0
        | Some previousResult =>
            let previousFeedback := Snapshot_getFeedback snapshot in
            match getHintIndex previousFeedback with
            | None => Ok 0
            | Some previousHintIndex =>
                match getParagraphs previousFeedback with
                | [] => Throw TypeError
                | firstParagraph :: _ =>
                    if option_string_eqb
                         (getContent firstParagraph)
                         (at_index buggyMessages previousHintIndex)
                    then
                      let previousCode :=
                        getPreprocessedCode previousResult in
                      if String.eqb previousCode
                           (getPreprocessedCode codeEvalResult)
                         || (previousHintIndex =? len buggyMessages - 1)
                      then Ok previousHintIndex
                      else Ok (previousHintIndex + 1)
                    else Ok 0
                end
            end
        end
    end ;;
  let feedback := create false in
  let feedback :=
    appendTextParagraph feedback (at_index buggyMessages hintIndex) in
  let feedback := setHintIndex feedback hintIndex in
  Ok feedback.

(** ** [_getCorrectnessTestFeedback] *)

Definition _getCorrectnessTestFeedback (outputFunctionName : option string)
    (correctnessTest : CorrectnessTest) (observedOutput : jsval)
    : result Feedback :=
  let allowedOutputExample := getAnyAllowedOutput correctnessTest in
  let feedback := create false in
  let feedback :=
    appendTextParagraph feedback
      (Some "Your code produced the following result:") in
  feedback <-
    match outputFunctionName with
    | Some (String _ _ as name) =>
        input <- _jsToHumanReadable (getInput correctnessTest) ;;
        output <- _jsToHumanReadable observedOutput ;;
        let feedback :=
          appendCodeParagraph feedback
            (Some ("Input: " ++ input ++ String newline "" ++
                   "Output (after running " ++ name ++ "): " ++ output)) in
        Ok (appendTextParagraph feedback
              (Some ("However, the expected output of " ++ name ++ " is:")))
    | _ =>
        input <- _jsToHumanReadable (getInput correctnessTest) ;;
        output <- _jsToHumanReadable observedOutput ;;
        let feedback :=
          appendCodeParagraph feedback
            (Some ("Input: " ++ input ++ String newline "" ++
                   "Output: " ++ output)) in
        Ok (appendTextParagraph feedback
              (Some "However, the expected output is:"))
    end ;;
  example <- _jsToHumanReadable allowedOutputExample ;;
  let feedback := appendCodeParagraph feedback (Some example) in
  Ok (appendTextParagraph feedback (Some "Could you fix this?")).

(** ** [_getPerformanceTestFeedback] *)

Definition _getPerformanceTestFeedback (expectedPerformance : string)
    : Feedback :=
  let feedback := create false in
  appendTextParagraph feedback
    (Some (join ""
       ["Your code is running more slowly than expected. Can you ";
        "reconfigure it such that it runs in ";
        expectedPerformance;
        " time?"])).

(** ** [_getRuntimeErrorFeedback] *)

(** [s] without its prefix [p], when it starts with [p]. *)
Fixpoint strip_prefix (p s : string) : option string :=
  match p with
  | EmptyString => Some s
  | String a p' =>
      match s with
      | EmptyString => None
      | String b s' => if Ascii.eqb a b then strip_prefix p' s' else None
      end
  end.

(** The regular expression [line ([0-9]+)$] tried at the start of [s]:
    the capture group when it matches there, that is when [s] is
    [line ] followed by one or more digits up to its end. *)
Definition match_line_here (s : string) : option string :=
  match strip_prefix "line " s with
  | Some (String _ _ as digits) =>
      if all_digits digits then Some digits else None
  | _ => None
  end.

(** [s.replace(new RegExp('line ([0-9]+)$'), replacer)]: the leftmost match
    is replaced by what [replacer] returns for the capture group; without
    a match the string is returned as it is. *)
Fixpoint replace_line (s : string) (replacer : string -> result string)
    : result string :=
  match match_line_here s with
  | Some humanReadableLineNumber => replacer humanReadableLineNumber
  | None =>
      match s with
      | EmptyString => Ok EmptyString
      | String c rest =>
          fixed <- replace_line rest replacer ;;
          Ok (String c fixed)
      end
  end.

(** An entry of [rawCodeLineIndexes] is a line index of the student's code
    or [null] (here [None]) for a line of the test code. *)
Definition _getRuntimeErrorFeedback (codeEvalResult : CodeEvalResult)
    (rawCodeLineIndexes : list (option Z)) : result Feedback :=
  let errorInput := getErrorInput codeEvalResult in
  readable <- _jsToHumanReadable errorInput ;;
  let inputClause := " when evaluating the input " ++ readable in
  let feedback := create false in
  let feedback :=
    appendTextParagraph feedback
      (Some ("Looks like your code had a runtime error" ++ inputClause ++
             ". Here's the trace:")) in
  match getErrorString codeEvalResult with
  | None => Throw TypeError
  | Some errorString =>
      fixedErrorString <-
        replace_line errorString (fun humanReadableLineNumber =>
          let preprocessedCodeLineIndex :=
            Number_of_digits humanReadableLineNumber - 1 in
          if (preprocessedCodeLineIndex <? 0)
             || (preprocessedCodeLineIndex >=? len rawCodeLineIndexes)
          then
            Throw (Error ("Line number index out of range: " ++
                          String_of_Z preprocessedCodeLineIndex))
          else
            match at_index rawCodeLineIndexes preprocessedCodeLineIndex with
            | Some None => Ok "a line in the test code"
            | Some (Some rawIndex) =>
                Ok ("line " ++ String_of_Z (rawIndex + 1))
            | None => Ok "line NaN"
            end) ;;
      Ok (appendCodeParagraph feedback (Some fixedErrorString))
  end.

(** ** [_getTimeoutErrorFeedback] and [_getInfiniteLoopFeedback] *)

Definition _getTimeoutErrorFeedback (_ : unit) : Feedback :=
  let feedback := create false in
  appendTextParagraph feedback
    (Some (join ""
       ["Your program's exceeded the time limit (";
        String_of_number CODE_EXECUTION_TIMEOUT_SECONDS;
        " seconds) we've set. Can you try to make it run ";
        "more efficiently?"])).

Definition _getInfiniteLoopFeedback (_ : unit) : Feedback :=
  let feedback := create false in
  appendTextParagraph feedback
    (Some (join " "
       ["Looks like your code is hitting an infinite recursive loop.";
        "Check to see that your recursive calls terminate."])).

(** ** [_getFeedbackWithoutReinforcement] *)

(** The three inner loops [for (j = 0; j < tests[i].length; j++)].  [tests]
    is what is left of the array from index [j] on; [Ok None] means the
    loop ran to its end without a [return].  Reading [results[i][j]] when
    [results[i]] is [undefined] raises a [TypeError]; an index [j] past the
    end of the row reads [undefined]. *)
Fixpoint buggyOutputLoop (lastSnapshot : option Snapshot)
    (codeEvalResult : CodeEvalResult) (i : nat)
    (tests : list BuggyOutputTest) (j : nat) : result (option Feedback) :=
  match tests with
  | [] => Ok None
  | test :: rest =>
      match nth_error (getBuggyOutputTestResults codeEvalResult) i with
      | None => Throw TypeError
      | Some row =>
          if nth j row false then
            feedback <-
              _getBuggyOutputTestFeedback lastSnapshot test codeEvalResult ;;
            Ok (Some feedback)
          else buggyOutputLoop lastSnapshot codeEvalResult i rest (S j)
      end
  end.

Fixpoint correctnessLoop (codeEvalResult : CodeEvalResult) (task : Task)
    (i : nat) (tests : list CorrectnessTest) (j : nat)
    : result (option Feedback) :=
  match tests with
  | [] => Ok None
  | test :: rest =>
      match nth_error (getCorrectnessTestResults codeEvalResult) i with
      | None => Throw TypeError
      | Some row =>
          let observedOutput := nth j row JUndefined in
          if negb (matchesOutput test observedOutput) then
            feedback <-
              _getCorrectnessTestFeedback
                (getOutputFunctionNameWithoutClass task) test
                observedOutput ;;
            Ok (Some feedback)
          else correctnessLoop codeEvalResult task i rest (S j)
      end
  end.

Fixpoint performanceLoop (codeEvalResult : CodeEvalResult) (i : nat)
    (tests : list PerformanceTest) (j : nat) : result (option Feedback) :=
  match tests with
  | [] => Ok None
  | test :: rest =>
      let expectedPerformance := getExpectedPerformance test in
      match nth_error (getPerformanceTestResults codeEvalResult) i with
      | None => Throw TypeError
      | Some row =>
          let observedPerformance := nth_error row j in
          if negb (option_string_eqb (Some expectedPerformance)
                     observedPerformance)
          then Ok (Some (_getPerformanceTestFeedback expectedPerformance))
          else performanceLoop codeEvalResult i rest (S j)
      end
  end.

(** The outer loop [for (i = 0; i < tasks.length; i++)]; [tasks] is what is
    left of the array from index [i] on. *)
Fixpoint tasksLoop (lastSnapshot : option Snapshot)
    (codeEvalResult : CodeEvalResult) (tasks : list Task) (i : nat)
    : result (option Feedback) :=
  match tasks with
  | [] => Ok None
  | task :: rest =>
      buggy <-
        buggyOutputLoop lastSnapshot codeEvalResult i
          (getBuggyOutputTests task) 0 ;;
      match buggy with
      | Some feedback => Ok (Some feedback)
      | None =>
          correctness <-
            correctnessLoop codeEvalResult task i
              (getCorrectnessTests task) 0 ;;
          match correctness with
          | Some feedback => Ok (Some feedback)
          | None =>
              performance <-
                performanceLoop codeEvalResult i
                  (getPerformanceTests task) 0 ;;
              match performance with
              | Some feedback => Ok (Some feedback)
              | None => tasksLoop lastSnapshot codeEvalResult rest (S i)
              end
          end
      end
  end.

(** The feedback built after the loops, when no test failed. *)
Definition completedFeedback : Feedback :=
  let feedback := create true in
  appendTextParagraph feedback
    (Some (join ""
       ["You've completed all the tasks for this question! Click the ";
        String dquote "Next" ++ String dquote
          " button to move on to the next question."])).

(** [if (errorString)] holds for a string that is neither [null] nor
    empty. *)
Definition _getFeedbackWithoutReinforcement (lastSnapshot : option Snapshot)
    (tasks : list Task) (codeEvalResult : CodeEvalResult)
    (rawCodeLineIndexes : list (option Z)) : result Feedback :=
  let errorString := getErrorString codeEvalResult in
  match errorString with
  | Some (String _ _ as errorString) =>
      if startsWith errorString "TimeLimitError" then
        Ok (_getTimeoutErrorFeedback tt)
      else if startsWith errorString "ExternalError: RangeError" then
        Ok (_getInfiniteLoopFeedback tt)
      else _getRuntimeErrorFeedback codeEvalResult rawCodeLineIndexes
  | _ =>
      found <- tasksLoop lastSnapshot codeEvalResult tasks 0 ;;
      match found with
      | Some feedback => Ok feedback
      | None => Ok completedFeedback
      end
  end.

(** ** [ErrorTraceback] *)

Record TracebackCoordinates : Type := {
  getLineNumber : number;
  getColumnNumber : number
}.

Record ErrorTraceback : Type := {
  _errorMessage : string;
  _tracebackCoordinates : list TracebackCoordinates
}.

Definition _getFirstTracebackLine (this : ErrorTraceback) : result number :=
  match _tracebackCoordinates this with
  | [] => Throw TypeError
  | first :: _ => Ok (getLineNumber first)
  end.

Definition ErrorTraceback_getErrorString (this : ErrorTraceback)
    : result string :=
  if indexOf (_errorMessage this) "TimeLimitError" =? 0 then
    Ok (_errorMessage this)
  else
    line <- _getFirstTracebackLine this ;;
    Ok (_errorMessage this ++ " on line " ++ String_of_number line).

(** ** [ErrorTraceback.create] and [ErrorTraceback.fromSkulptError] *)

Definition ErrorTraceback_create (errorMessage : string)
    (tracebackCoordinates : list TracebackCoordinates) : ErrorTraceback :=
  {| _errorMessage := errorMessage;
     _tracebackCoordinates := tracebackCoordinates |}.

(** [TracebackCoordinatesObjectFactory.create], whose factory is not among
    the sources: the coordinates object of a line and a column. *)
Definition TracebackCoordinates_create (lineNumber columnNumber : number)
    : TracebackCoordinates :=
  {| getLineNumber := lineNumber; getColumnNumber := columnNumber |}.

(** What [fromSkulptError] reads of a Skulpt error: its string
    [String(skulptError)] and the lines of its [traceback]. *)
Record SkulptTraceLine : Type := {
  lineno : number;
  colno : number
}.

Record SkulptError : Type := {
  SkulptError_toString : string;
  traceback : list SkulptTraceLine
}.

Definition fromSkulptError (skulptError : SkulptError) : ErrorTraceback :=
  let errorMessage :=
    slice (SkulptError_toString skulptError) 0
      (indexOf (SkulptError_toString skulptError) " on line") in
  let tracebackCoordinates :=
    map (fun traceLine =>
           TracebackCoordinates_create (lineno traceLine) (colno traceLine))
        (traceback skulptError) in
  ErrorTraceback_create errorMessage tracebackCoordinates.

(** ** [getFeedback] *)

(** The reinforcement generator is a collaborator; a feedback together
    with the reinforcement [setReinforcement] stored in it, if any, is
    what [getFeedback] returns. *)
Variable Reinforcement : Type.
Variable getReinforcement : Task -> CodeEvalResult -> Reinforcement.

(** [tasks.length > 0] holds for [first :: others], whose element at
    [tasks.length - 1] is [last others first]. *)
Definition getFeedback (lastSnapshot : option Snapshot) (tasks : list Task)
    (codeEvalResult : CodeEvalResult) (rawCodeLineIndexes : list (option Z))
    : result (Feedback * option Reinforcement) :=
  feedback <-
    _getFeedbackWithoutReinforcement lastSnapshot tasks codeEvalResult
      rawCodeLineIndexes ;;
  match tasks with
  | first :: others =>
      if negb (truthy (getErrorString codeEvalResult)) then
        Ok (feedback,
            Some (getReinforcement (last others first) codeEvalResult))
      else Ok (feedback, None)
  | [] => Ok (feedback, None)
  end.

(** ** [getPrereqFailureFeedback] *)

(** The injected constant [SUPPORTED_PYTHON_LIBS]. *)
Variable SUPPORTED_PYTHON_LIBS : list string.

(** Modelled from the spec: the prerequisite-check failure, whose factory
    is not among the sources, by what its methods answer.  The three kinds
    are mutually exclusive in the specification; the code asks for them in
    the order of the fields. *)
Record PrereqCheckFailure : Type := {
  isMissingStarterCode : bool;
  isBadImport : bool;
  hasGlobalCode : bool;
  getStarterCode : string;
  getBadImports : list string
}.

(** The argument is [None] for [null]; [join()] without an argument joins
    with a comma. *)
Definition getPrereqFailureFeedback
    (prereqCheckFailure : option PrereqCheckFailure) : result Feedback :=
  match prereqCheckFailure with
  | None =>
      Throw (Error "getPrereqFailureFeedback() called with 0 failures.")
  | Some prereqCheckFailure =>
      let feedback := create false in
      if isMissingStarterCode prereqCheckFailure then
        let feedback :=
          appendTextParagraph feedback
            (Some (join ""
               ["It looks like you deleted or modified the starter code!  Our ";
                "evaluation program requires the function names given in the ";
                "starter code.  You can press the 'Reset Code' button to start ";
                "over.  Or, you can copy the starter code below:"])) in
        Ok (appendCodeParagraph feedback
              (Some (getStarterCode prereqCheckFailure)))
      else if isBadImport prereqCheckFailure then
        let feedback :=
          appendTextParagraph feedback
            (Some (join ""
               ["It looks like you're importing an external library. However, the ";
                "following libraries are not supported:" ++ String newline ""]))
        in
        let feedback :=
          appendCodeParagraph feedback
            (Some (join (String newline "")
                     (getBadImports prereqCheckFailure))) in
        let feedback :=
          appendTextParagraph feedback
            (Some ("Here is a list of libraries we currently support:"
                   ++ String newline "")) in
        Ok (appendCodeParagraph feedback
              (Some (join ", " SUPPORTED_PYTHON_LIBS)))
      else if hasGlobalCode prereqCheckFailure then
        Ok (appendTextParagraph feedback
              (Some (join " "
                 ["Please keep your code within the existing predefined functions";
                  "-- we cannot process code in the global scope."])))
      else
        Throw (Error (join ","
                 ["Unrecognized prereq check failure type ";
                  "in getPrereqFailureFeedback()."]))
  end.

(** ** The behaviour the specification describes *)

(** The value renderer in the specification's words: one pass over the
    characters of a string, tab and newline written as two characters;
    sequences and mappings rendered element by element. *)
Definition escape_char (c : ascii) : string :=
  if Ascii.eqb c tab then "\t"
  else if Ascii.eqb c newline then "\n"
  else String c "".

Fixpoint escape (s : string) : string :=
  match s with
  | EmptyString => EmptyString
  | String c rest => escape_char c ++ escape rest
  end.

Definition quoted (s : string) : string :=
  String dquote (escape s ++ String dquote "").

Fixpoint toDisplayString (value : jsval) : string :=
  match value with
  | JNull | JUndefined => "None"
  | JStr s => quoted s
  | JNum n => String_of_number n
  | JBool true => "True"
  | JBool false => "False"
  | JArr elements => "[" ++ join ", " (map toDisplayString elements) ++ "]"
  | JObj entries =>
      "{" ++ join ", "
               (map (fun entry =>
                       quoted (fst entry) ++ ": "
                       ++ toDisplayString (snd entry)) entries)
          ++ "}"
  | JFunction _ | JSymbol _ | JBigInt _ => ""
  end.

(** Values built from absent values, strings, numbers, booleans, sequences
    and mappings only. *)
Fixpoint recognized (value : jsval) : bool :=
  match value with
  | JNull | JUndefined | JStr _ | JNum _ | JBool _ => true
  | JArr elements => forallb recognized elements
  | JObj entries => forallb (fun entry => recognized (snd entry)) entries
  | JFunction _ | JSymbol _ | JBigInt _ => false
  end.

(** The scan order of the specification: task by task and, within a task,
    the buggy-output tests, then the correctness tests, then the
    performance tests.  A reference records the test with its task index
    [i] and its index [j] in its own sequence. *)
Inductive TestRef : Type :=
| BuggyRef (i j : nat) (test : BuggyOutputTest)
| CorrectnessRef (i j : nat) (task : Task) (test : CorrectnessTest)
| PerformanceRef (i j : nat) (test : PerformanceTest).

Fixpoint indexed_from {A : Type} (start : nat) (l : list A)
    : list (nat * A) :=
  match l with
  | [] => []
  | x :: rest => (start, x) :: indexed_from (S start) rest
  end.

Definition task_scan (i : nat) (task : Task) : list TestRef :=
  map (fun jt => BuggyRef i (fst jt) (snd jt))
      (indexed_from 0 (getBuggyOutputTests task))
  ++ map (fun jt => CorrectnessRef i (fst jt) task (snd jt))
         (indexed_from 0 (getCorrectnessTests task))
  ++ map (fun jt => PerformanceRef i (fst jt) (snd jt))
         (indexed_from 0 (getPerformanceTests task)).

Definition scan_order (tasks : list Task) : list TestRef :=
  flat_map (fun it => task_scan (fst it) (snd it)) (indexed_from 0 tasks).

(** Whether a test fails on an evaluation result: a buggy-output test when
    its flag is set, a correctness test when the observed output matches
    no allowed output, a performance test when the observed class differs
    from the expected one.  The check itself fails when the result has no
    row for the task. *)
Definition test_fails (codeEvalResult : CodeEvalResult) (ref : TestRef)
    : result bool :=
  match ref with
  | BuggyRef i j _ =>
      match nth_error (getBuggyOutputTestResults codeEvalResult) i with
      | None => Throw TypeError
      | Some row => Ok (nth j row false)
      end
  | CorrectnessRef i j _ test =>
      match nth_error (getCorrectnessTestResults codeEvalResult) i with
      | None => Throw TypeError
      | Some row =>
          Ok (forallb
                (fun allowedOutput =>
                   negb (outputsMatch allowedOutput (nth j row JUndefined)))
                (getAllowedOutputs test))
      end
  | PerformanceRef i j test =>
      match nth_error (getPerformanceTestResults codeEvalResult) i with
      | None => Throw TypeError
      | Some row =>
          Ok (match nth_error row j with
              | Some observed =>
                  negb (String.eqb (getExpectedPerformance test) observed)
              | None => true
              end)
      end
  end.

(** The feedback for a failing test. *)
Definition feedback_for (lastSnapshot : option Snapshot)
    (codeEvalResult : CodeEvalResult) (ref : TestRef) : result Feedback :=
  match ref with
  | BuggyRef _ _ test =>
      _getBuggyOutputTestFeedback lastSnapshot test codeEvalResult
  | CorrectnessRef i j task test =>
      _getCorrectnessTestFeedback
        (getOutputFunctionNameWithoutClass task) test
        (nth j (nth i (getCorrectnessTestResults codeEvalResult) [])
           JUndefined)
  | PerformanceRef _ _ test =>
      Ok (_getPerformanceTestFeedback (getExpectedPerformance test))
  end.

(** Walking a scan: the feedback for its first failing test, [Ok None]
    when every test passes. *)
Fixpoint report_first_failing (lastSnapshot : option Snapshot)
    (codeEvalResult : CodeEvalResult) (refs : list TestRef)
    : result (option Feedback) :=
  match refs with
  | [] => Ok None
  | ref :: rest =>
      failed <- test_fails codeEvalResult ref ;;
      if failed then
        feedback <- feedback_for lastSnapshot codeEvalResult ref ;;
        Ok (Some feedback)
      else report_first_failing lastSnapshot codeEvalResult rest
  end.

Definition is_buggy_ref (ref : TestRef) : bool :=
  match ref with
  | BuggyRef _ _ _ => true
  | _ => false
  end.

(** The first paragraph of a feedback, which carries its message. *)
Definition firstParagraph (feedback : Feedback) : option FeedbackParagraph :=
  hd_error (getParagraphs feedback).

(** The feedback of a runtime error whose trace is [trace]. *)
Definition runtimeErrorFeedback (readable trace : string) : Feedback :=
  {| getParagraphs :=
       [{| getType := PARAGRAPH_TYPE_TEXT;
           getContent :=
             Some ("Looks like your code had a runtime error" ++
                   " when evaluating the input " ++ readable ++
                   ". Here's the trace:") |};
        {| getType := PARAGRAPH_TYPE_CODE; getContent := Some trace |}];
     isAnswerCorrect := false;
     getHintIndex := None |}.

(** Whether a string holds a tab or a newline character. *)
Fixpoint has_raw_control (s : string) : bool :=
  match s with
  | EmptyString => false
  | String c rest =>
      Ascii.eqb c tab || Ascii.eqb c newline || has_raw_control rest
  end.

(** The error every unrenderable value ends in. *)
Definition unrenderable : exn :=
  Error "Could not make the following object human-readable: ".

(** The feedback for a failing correctness test once its three values are
    rendered. *)
Definition correctnessFeedback (outputFunctionName : option string)
    (input output example : string) : Feedback :=
  {| getParagraphs :=
       [{| getType := PARAGRAPH_TYPE_TEXT;
           getContent := Some "Your code produced the following result:" |};
        {| getType := PARAGRAPH_TYPE_CODE;
           getContent :=
             Some ("Input: " ++ input ++ String newline "" ++
                   match outputFunctionName with
                   | Some (String _ _ as name) =>
                       "Output (after running " ++ name ++ "): " ++ output
                   | _ => "Output: " ++ output
                   end) |};
        {| getType := PARAGRAPH_TYPE_TEXT;
           getContent :=
             Some match outputFunctionName with
                  | Some (String _ _ as name) =>
                      "However, the expected output of " ++ name ++ " is:"
                  | _ => "However, the expected output is:"
                  end |};
        {| getType := PARAGRAPH_TYPE_CODE; getContent := Some example |};
        {| getType := PARAGRAPH_TYPE_TEXT;
           getContent := Some "Could you fix this?" |}];
     isAnswerCorrect := false;
     getHintIndex := None |}.

(** A session on one buggy-output test: every submission of [submissions]
    is answered by [_getBuggyOutputTestFeedback] and recorded with its
    feedback as the most recent snapshot for the next one.  The result is
    the last snapshot. *)
Fixpoint hintSession (failingTest : BuggyOutputTest)
    (lastSnapshot : option Snapshot) (submissions : list CodeEvalResult)
    : result (option Snapshot) :=
  match submissions with
  | [] => Ok lastSnapshot
  | codeEvalResult :: later =>
      feedback <-
        _getBuggyOutputTestFeedback lastSnapshot failingTest codeEvalResult ;;
      hintSession failingTest
        (Some {| Snapshot_getCodeEvalResult := Some codeEvalResult;
                 Snapshot_getFeedback := feedback |})
        later
  end.

(** Every submission differs in its preprocessed code from the one before
    it. *)
Fixpoint code_changes (previousCode : option string)
    (submissions : list CodeEvalResult) : bool :=
  match submissions with
  | [] => true
  | codeEvalResult :: later =>
      match previousCode with
      | Some code => negb (String.eqb code (getPreprocessedCode codeEvalResult))
      | None => true
      end
      && code_changes (Some (getPreprocessedCode codeEvalResult)) later
  end.

(** The feedback that shows the hint at [hintIndex]. *)
Definition hintFeedbackAt (buggyMessages : list string) (hintIndex : Z)
    : Feedback :=
  setHintIndex
    (appendTextParagraph (create false) (at_index buggyMessages hintIndex))
    hintIndex.

(** Whether the last character of a string is a digit. *)
Fixpoint ends_in_digit (s : string) : bool :=
  match s with
  | EmptyString => false
  | String c EmptyString => is_digit c
  | String _ rest => ends_in_digit rest
  end.

(** The branch [getPrereqFailureFeedback] takes for a failure: 0 for the
    missing starter code, 1 for the bad import, 2 for the global code, 3
    for none of them. *)
Definition prereqBranch (prereqCheckFailure : PrereqCheckFailure) : nat :=
  if isMissingStarterCode prereqCheckFailure then 0%nat
  else if isBadImport prereqCheckFailure then 1%nat
  else if hasGlobalCode prereqCheckFailure then 2%nat
  else 3%nat.

(** * Proofs *)

(** ** Strings *)

(** The two passes of the code amount to the single pass of the
    specification: the characters the first pass writes are no newlines. *)
Lemma two_passes_escape (s : string) :
  replace_all newline "\n" (replace_all tab "\t" s) = escape s.
Proof.
  induction s as [|c s IH]; simpl; [reflexivity|].
  unfold escape_char.
  destruct (Ascii.eqb c tab) eqn:Htab.
  - simpl. now rewrite IH.
  - simpl. destruct (Ascii.eqb c newline); simpl; now rewrite IH.
Qed.

Lemma humanReadableString_quoted (s : string) :
  humanReadableString s = quoted s.
Proof.
  unfold humanReadableString, quoted. now rewrite two_passes_escape.
Qed.

(** ** Induction on values *)

Section JsvalInduction.

Variable P : jsval -> Prop.
Hypothesis HNull : P JNull.
Hypothesis HUndefined : P JUndefined.
Hypothesis HStr : forall s, P (JStr s).
Hypothesis HNum : forall n, P (JNum n).
Hypothesis HBool : forall b, P (JBool b).
Hypothesis HArr : forall elements, Forall P elements -> P (JArr elements).
Hypothesis HObj :
  forall entries, Forall (fun entry => P (snd entry)) entries ->
                  P (JObj entries).
Hypothesis HFunction : forall name, P (JFunction name).
Hypothesis HSymbol : forall description, P (JSymbol description).
Hypothesis HBigInt : forall n, P (JBigInt n).

Fixpoint jsval_ind (value : jsval) : P value :=
  match value with
  | JNull => HNull
  | JUndefined => HUndefined
  | JStr s => HStr s
  | JNum n => HNum n
  | JBool b => HBool b
  | JArr elements =>
      HArr elements
        ((fix all (l : list jsval) : Forall P l :=
            match l with
            | [] => Forall_nil P
            | x :: rest => Forall_cons x (jsval_ind x) (all rest)
            end) elements)
  | JObj entries =>
      HObj entries
        ((fix all (l : list (string * jsval))
            : Forall (fun entry => P (snd entry)) l :=
            match l with
            | [] => Forall_nil _
            | x :: rest => Forall_cons x (jsval_ind (snd x)) (all rest)
            end) entries)
  | JFunction name => HFunction name
  | JSymbol description => HSymbol description
  | JBigInt n => HBigInt n
  end.

End JsvalInduction.

(** ** The value renderer *)

(** C7: on every value built from absent values, strings, numbers,
    booleans, sequences and mappings, [_jsToHumanReadable] returns the
    rendering of the specification: [None] for an absent value, the
    quoted string with tab and newline escaped, [True] / [False], the
    bracketed [", "]-joined renderings of the elements of a sequence, and
    the braced [", "]-joined [key: value] renderings of the entries of a
    mapping in enumeration order. *)
Theorem jsToHumanReadable_renders (value : jsval) :
  recognized value = true ->
  _jsToHumanReadable value = Ok (toDisplayString value).
Proof.
  induction value as
    [ | | s | n | b | elements IH | entries IH | name | description | n ]
    using jsval_ind; intros Hrec;
    try reflexivity; try discriminate.
  - simpl. now rewrite humanReadableString_quoted.
  - assert (Hmap :
      (fix map_ (l : list jsval) : result (list string) :=
         match l with
         | [] => Ok []
         | arrayElement :: rest =>
             x <- _jsToHumanReadable arrayElement ;;
             xs <- map_ rest ;;
             Ok (x :: xs)
         end) elements = Ok (map toDisplayString elements)).
    { induction IH as [|x rest Hx _ IHrest]; [reflexivity|].
      simpl in Hrec. apply andb_true_iff in Hrec as [Hx' Hrest'].
      rewrite (Hx Hx'). simpl. rewrite (IHrest Hrest'). reflexivity. }
    simpl in Hmap |- *. rewrite Hmap. reflexivity.
  - assert (Hmap :
      (fix for_in (l : list (string * jsval)) : result (list string) :=
         match l with
         | [] => Ok []
         | (key, value) :: rest =>
             k <- Ok (humanReadableString key) ;;
             v <- _jsToHumanReadable value ;;
             ps <- for_in rest ;;
             Ok ((k ++ ": " ++ v) :: ps)
         end) entries
      = Ok (map (fun entry =>
                   quoted (fst entry) ++ ": " ++ toDisplayString (snd entry))
                entries)).
    { induction IH as [|[key x] rest Hx _ IHrest]; [reflexivity|].
      simpl in Hrec. apply andb_true_iff in Hrec as [Hx' Hrest'].
      simpl in Hx. unfold bind at 1. rewrite (Hx Hx'). unfold bind at 1.
      rewrite (IHrest Hrest'), humanReadableString_quoted.
      reflexivity. }
    simpl in Hmap |- *. rewrite Hmap. reflexivity.
Qed.

(** ** The scan of the tasks *)

Lemma truthy_false_cases (s : option string) :
  truthy s = false -> s = None \/ s = Some "".
Proof.
  destruct s as [[|c s]|]; simpl; intros H;
    [now right | discriminate | now left].
Qed.

Lemma matchesOutput_negb (test : CorrectnessTest) (output : jsval) :
  negb (matchesOutput test output)
  = forallb (fun allowedOutput => negb (outputsMatch allowedOutput output))
            (getAllowedOutputs test).
Proof.
  unfold matchesOutput.
  induction (getAllowedOutputs test) as [|a l IH]; simpl; [reflexivity|].
  now rewrite negb_orb, IH.
Qed.

Lemma report_app (lastSnapshot : option Snapshot) (r : CodeEvalResult)
    (front back : list TestRef) :
  report_first_failing lastSnapshot r (front ++ back)
  = found <- report_first_failing lastSnapshot r front ;;
    match found with
    | Some feedback => Ok (Some feedback)
    | None => report_first_failing lastSnapshot r back
    end.
Proof.
  induction front as [|ref front IH]; simpl; [reflexivity|].
  destruct (test_fails r ref) as [[|]|e]; simpl; try reflexivity.
  - now destruct (feedback_for lastSnapshot r ref).
  - exact IH.
Qed.

Lemma buggyOutputLoop_report (lastSnapshot : option Snapshot)
    (r : CodeEvalResult) (i : nat) (tests : list BuggyOutputTest) :
  forall j,
    buggyOutputLoop lastSnapshot r i tests j
    = report_first_failing lastSnapshot r
        (map (fun jt => BuggyRef i (fst jt) (snd jt))
             (indexed_from j tests)).
Proof.
  induction tests as [|test rest IH]; intros j; simpl; [reflexivity|].
  destruct (nth_error (getBuggyOutputTestResults r) i) as [row|];
    simpl; [|reflexivity].
  destruct (nth j row false); [reflexivity | apply IH].
Qed.

Lemma correctnessLoop_report (lastSnapshot : option Snapshot)
    (r : CodeEvalResult) (task : Task) (i : nat)
    (tests : list CorrectnessTest) :
  forall j,
    correctnessLoop r task i tests j
    = report_first_failing lastSnapshot r
        (map (fun jt => CorrectnessRef i (fst jt) task (snd jt))
             (indexed_from j tests)).
Proof.
  induction tests as [|test rest IH]; intros j; simpl; [reflexivity|].
  destruct (nth_error (getCorrectnessTestResults r) i) as [row|] eqn:Hrow;
    simpl; [|reflexivity].
  rewrite matchesOutput_negb.
  destruct (forallb _ (getAllowedOutputs test)); [|apply IH].
  now rewrite (nth_error_nth _ _ [] Hrow).
Qed.

Lemma performanceLoop_report (lastSnapshot : option Snapshot)
    (r : CodeEvalResult) (i : nat) (tests : list PerformanceTest) :
  forall j,
    performanceLoop r i tests j
    = report_first_failing lastSnapshot r
        (map (fun jt => PerformanceRef i (fst jt) (snd jt))
             (indexed_from j tests)).
Proof.
  induction tests as [|test rest IH]; intros j; simpl; [reflexivity|].
  destruct (nth_error (getPerformanceTestResults r) i) as [row|];
    simpl; [|reflexivity].
  destruct (nth_error row j) as [observed|]; simpl; [|reflexivity].
  destruct (negb (getExpectedPerformance test =? observed)%string);
    [reflexivity | apply IH].
Qed.

Lemma tasksLoop_report (lastSnapshot : option Snapshot)
    (r : CodeEvalResult) (tasks : list Task) :
  forall i,
    tasksLoop lastSnapshot r tasks i
    = report_first_failing lastSnapshot r
        (flat_map (fun it => task_scan (fst it) (snd it))
                  (indexed_from i tasks)).
Proof.
  induction tasks as [|task rest IH]; intros i; simpl; [reflexivity|].
  unfold task_scan at 1. rewrite !report_app.
  rewrite <- buggyOutputLoop_report,
          <- (correctnessLoop_report lastSnapshot),
          <- (performanceLoop_report lastSnapshot).
  destruct (buggyOutputLoop lastSnapshot r i (getBuggyOutputTests task) 0)
    as [[fb|]|e]; simpl; try reflexivity.
  destruct (correctnessLoop r task i (getCorrectnessTests task) 0)
    as [[fb|]|e]; simpl; try reflexivity.
  destruct (performanceLoop r i (getPerformanceTests task) 0)
    as [[fb|]|e]; simpl; try reflexivity.
  apply IH.
Qed.

(** Without an error string the selection walks the scan order. *)
Lemma selection_walks_scan (lastSnapshot : option Snapshot)
    (tasks : list Task) (r : CodeEvalResult) (lines : list (option Z)) :
  truthy (getErrorString r) = false ->
  _getFeedbackWithoutReinforcement lastSnapshot tasks r lines
  = found <- report_first_failing lastSnapshot r (scan_order tasks) ;;
    match found with
    | Some feedback => Ok feedback
    | None => Ok completedFeedback
    end.
Proof.
  intros Herr. unfold _getFeedbackWithoutReinforcement, scan_order.
  rewrite <- tasksLoop_report.
  destruct (truthy_false_cases _ Herr) as [-> | ->]; reflexivity.
Qed.

Lemma report_at_first_failing (lastSnapshot : option Snapshot)
    (r : CodeEvalResult) (before after : list TestRef) (ref : TestRef) :
  Forall (fun earlier => test_fails r earlier = Ok false) before ->
  test_fails r ref = Ok true ->
  report_first_failing lastSnapshot r (before ++ ref :: after)
  = feedback <- feedback_for lastSnapshot r ref ;; Ok (Some feedback).
Proof.
  intros Hbefore Hfail.
  induction Hbefore as [|x before Hx _ IH]; simpl.
  - now rewrite Hfail.
  - now rewrite Hx.
Qed.

(** C1: when the evaluation result carries no error string and [ref] is
    the first failing test of the scan order (tasks in their order; within
    a task the buggy-output tests, then the correctness tests, then the
    performance tests), every test before it passing, the selection
    returns the feedback for [ref]. *)
Theorem selection_reports_first_failing (lastSnapshot : option Snapshot)
    (tasks : list Task) (r : CodeEvalResult) (lines : list (option Z))
    (before after : list TestRef) (ref : TestRef) :
  truthy (getErrorString r) = false ->
  scan_order tasks = (before ++ ref :: after)%list ->
  Forall (fun earlier => test_fails r earlier = Ok false) before ->
  test_fails r ref = Ok true ->
  _getFeedbackWithoutReinforcement lastSnapshot tasks r lines
  = feedback_for lastSnapshot r ref.
Proof.
  intros Herr Hscan Hbefore Hfail.
  rewrite (selection_walks_scan _ _ _ _ Herr), Hscan.
  rewrite (report_at_first_failing _ _ _ _ _ Hbefore Hfail).
  now destruct (feedback_for lastSnapshot r ref).
Qed.

(** C3 (amended): when the evaluation result carries no error string, a
    buggy-output test fails, and every test scanned before it passes
    unless it is a buggy-output test itself, the selection returns the
    feedback for a failing buggy-output test. *)
Theorem buggy_reported_when_scanned_first (lastSnapshot : option Snapshot)
    (tasks : list Task) (r : CodeEvalResult) (lines : list (option Z))
    (before after : list TestRef) (ref : TestRef) :
  truthy (getErrorString r) = false ->
  scan_order tasks = (before ++ ref :: after)%list ->
  is_buggy_ref ref = true ->
  test_fails r ref = Ok true ->
  Forall (fun earlier =>
            exists failed,
              test_fails r earlier = Ok failed /\
              (failed = true -> is_buggy_ref earlier = true)) before ->
  exists reported,
    In reported (scan_order tasks) /\
    is_buggy_ref reported = true /\
    test_fails r reported = Ok true /\
    _getFeedbackWithoutReinforcement lastSnapshot tasks r lines
    = feedback_for lastSnapshot r reported.
Proof.
  intros Herr Hscan Hbuggy Hfail Hbefore.
  rewrite (selection_walks_scan _ _ _ _ Herr), Hscan. clear Hscan Herr.
  induction Hbefore as [|x before (failed & Hx & Hkind) _ IH].
  - exists ref. simpl. rewrite Hfail. simpl.
    repeat split; auto.
    now destruct (feedback_for lastSnapshot r ref).
  - destruct failed.
    + exists x. simpl. rewrite Hx. simpl.
      repeat split; auto.
      now destruct (feedback_for lastSnapshot r x).
    + destruct IH as (reported & Hin & Hb & Hf & Heq).
      exists reported. simpl. rewrite Hx. simpl.
      repeat split; auto.
Qed.

(** ** Execution errors *)

(** C2: with an error string present the selection looks at nothing but
    the error: it is the timeout feedback, whose only paragraph carries the
    configured time limit, when the string starts with [TimeLimitError],
    the infinite-recursion feedback when it starts with
    [ExternalError: RangeError], and the runtime-error feedback otherwise;
    tasks, test results, source text and transcript have no influence; and
    the messages of the three cases differ from one another: the timeout
    feedback is the one paragraph on the time limit, the
    infinite-recursion feedback the one paragraph on the recursive loop,
    and a runtime-error feedback the paragraph on the runtime error with
    the rendered error input, followed by the trace. *)
Theorem error_string_decides_feedback (lastSnapshot : option Snapshot)
    (tasks : list Task) (r : CodeEvalResult) (lines : list (option Z))
    (errorString : string) :
  getErrorString r = Some errorString ->
  errorString <> "" ->
  (startsWith errorString "TimeLimitError" = true ->
   _getFeedbackWithoutReinforcement lastSnapshot tasks r lines
   = Ok (_getTimeoutErrorFeedback tt)) /\
  (startsWith errorString "TimeLimitError" = false ->
   startsWith errorString "ExternalError: RangeError" = true ->
   _getFeedbackWithoutReinforcement lastSnapshot tasks r lines
   = Ok (_getInfiniteLoopFeedback tt)) /\
  (startsWith errorString "TimeLimitError" = false ->
   startsWith errorString "ExternalError: RangeError" = false ->
   _getFeedbackWithoutReinforcement lastSnapshot tasks r lines
   = _getRuntimeErrorFeedback r lines) /\
  (forall lastSnapshot' tasks' r',
     getErrorString r' = getErrorString r ->
     getErrorInput r' = getErrorInput r ->
     _getFeedbackWithoutReinforcement lastSnapshot' tasks' r' lines
     = _getFeedbackWithoutReinforcement lastSnapshot tasks r lines) /\
  getParagraphs (_getTimeoutErrorFeedback tt)
  = [{| getType := PARAGRAPH_TYPE_TEXT;
        getContent :=
          Some ("Your program's exceeded the time limit (" ++
                String_of_number CODE_EXECUTION_TIMEOUT_SECONDS ++
                " seconds) we've set. Can you try to make it run " ++
                "more efficiently?") |}] /\
  firstParagraph (_getTimeoutErrorFeedback tt)
  <> firstParagraph (_getInfiniteLoopFeedback tt) /\
  (forall runtimeFeedback,
     _getRuntimeErrorFeedback r lines = Ok runtimeFeedback ->
     firstParagraph runtimeFeedback
     <> firstParagraph (_getTimeoutErrorFeedback tt) /\
     firstParagraph runtimeFeedback
     <> firstParagraph (_getInfiniteLoopFeedback tt)) /\
  getParagraphs (_getInfiniteLoopFeedback tt)
  = [{| getType := PARAGRAPH_TYPE_TEXT;
        getContent :=
          Some ("Looks like your code is hitting an infinite recursive " ++
                "loop. Check to see that your recursive calls terminate.")
     |}] /\
  (forall runtimeFeedback,
     _getRuntimeErrorFeedback r lines = Ok runtimeFeedback ->
     exists readable trace,
       _jsToHumanReadable (getErrorInput r) = Ok readable /\
       getParagraphs runtimeFeedback
       = [{| getType := PARAGRAPH_TYPE_TEXT;
             getContent :=
               Some ("Looks like your code had a runtime error when " ++
                     "evaluating the input " ++ readable ++
                     ". Here's the trace:") |};
          {| getType := PARAGRAPH_TYPE_CODE; getContent := Some trace |}]).
Proof.
  intros Herr Hne.
  destruct errorString as [|c rest]; [congruence|].
  repeat split.
  - intros H. unfold _getFeedbackWithoutReinforcement.
    now rewrite Herr, H.
  - intros H1 H2. unfold _getFeedbackWithoutReinforcement.
    now rewrite Herr, H1, H2.
  - intros H1 H2. unfold _getFeedbackWithoutReinforcement.
    now rewrite Herr, H1, H2.
  - intros lastSnapshot' tasks' r' Hs Hi.
    unfold _getFeedbackWithoutReinforcement, _getRuntimeErrorFeedback.
    rewrite Hs, Hi, Herr. reflexivity.
  - discriminate.
  - unfold _getRuntimeErrorFeedback in H.
    destruct (_jsToHumanReadable (getErrorInput r)) as [readable|];
      [|discriminate].
    simpl in H. rewrite Herr in H.
    destruct (replace_line _ _) as [fixed|]; [|discriminate].
    injection H as <-. discriminate.
  - unfold _getRuntimeErrorFeedback in H.
    destruct (_jsToHumanReadable (getErrorInput r)) as [readable|];
      [|discriminate].
    simpl in H. rewrite Herr in H.
    destruct (replace_line _ _) as [fixed|]; [|discriminate].
    injection H as <-. discriminate.
  - intros runtimeFeedback H. unfold _getRuntimeErrorFeedback in H.
    destruct (_jsToHumanReadable (getErrorInput r)) as [readable|];
      [|discriminate].
    simpl in H. rewrite Herr in H.
    destruct (replace_line _ _) as [fixed|]; [|discriminate].
    injection H as <-. exists readable, fixed. split; reflexivity.
Qed.

(** ** Hint escalation *)

(** C4: when the previous snapshot carries an evaluation result and a
    hint-based feedback whose first paragraph equals the hint of the
    failing test at the previous hint index, and the previous preprocessed
    source equals the current one, the new hint index is the previous
    one. *)
Theorem hint_index_kept_on_same_code (snapshot : Snapshot)
    (previousResult : CodeEvalResult) (failingTest : BuggyOutputTest)
    (r : CodeEvalResult) (previousHintIndex : Z)
    (first : FeedbackParagraph) (others : list FeedbackParagraph) :
  Snapshot_getCodeEvalResult snapshot = Some previousResult ->
  getHintIndex (Snapshot_getFeedback snapshot) = Some previousHintIndex ->
  getParagraphs (Snapshot_getFeedback snapshot) = first :: others ->
  getContent first = at_index (getMessages failingTest) previousHintIndex ->
  getPreprocessedCode previousResult = getPreprocessedCode r ->
  exists feedback,
    _getBuggyOutputTestFeedback (Some snapshot) failingTest r = Ok feedback /\
    getHintIndex feedback = Some previousHintIndex.
Proof.
  intros Hres Hidx Hpar Hsame Hcode.
  unfold _getBuggyOutputTestFeedback.
  rewrite Hres, Hidx, Hpar, Hsame, Hcode, String.eqb_refl.
  destruct (at_index (getMessages failingTest) previousHintIndex);
    simpl; rewrite ?String.eqb_refl; simpl; eexists; split; reflexivity.
Qed.

(** C5: under the same conditions but with a preprocessed source that
    differs from the previous one, the new hint index is the previous one
    plus one, unless the previous one is the index of the last hint, in
    which case it is kept. *)
Theorem hint_index_advances_on_new_code (snapshot : Snapshot)
    (previousResult : CodeEvalResult) (failingTest : BuggyOutputTest)
    (r : CodeEvalResult) (previousHintIndex : Z)
    (first : FeedbackParagraph) (others : list FeedbackParagraph) :
  Snapshot_getCodeEvalResult snapshot = Some previousResult ->
  getHintIndex (Snapshot_getFeedback snapshot) = Some previousHintIndex ->
  getParagraphs (Snapshot_getFeedback snapshot) = first :: others ->
  getContent first = at_index (getMessages failingTest) previousHintIndex ->
  getPreprocessedCode previousResult <> getPreprocessedCode r ->
  exists feedback,
    _getBuggyOutputTestFeedback (Some snapshot) failingTest r = Ok feedback /\
    getHintIndex feedback
    = Some (if previousHintIndex =? len (getMessages failingTest) - 1
            then previousHintIndex
            else previousHintIndex + 1).
Proof.
  intros Hres Hidx Hpar Hsame Hcode.
  unfold _getBuggyOutputTestFeedback.
  rewrite Hres, Hidx, Hpar, Hsame.
  apply String.eqb_neq in Hcode. rewrite Hcode.
  assert (Hrefl : forall o, option_string_eqb o o = true)
    by (intros [x|]; simpl; [apply String.eqb_refl | reflexivity]).
  rewrite Hrefl. simpl.
  destruct (previousHintIndex =? len (getMessages failingTest) - 1);
    simpl; eexists; split; reflexivity.
Qed.

(** C6: the hint index is 0 when there is no previous snapshot, when the
    previous feedback has no hint index, and when the first paragraph of
    the previous feedback differs from the hint of the failing test at the
    previous hint index. *)
Theorem hint_index_starts_at_zero (lastSnapshot : option Snapshot)
    (failingTest : BuggyOutputTest) (r : CodeEvalResult) :
  lastSnapshot = None \/
  (exists snapshot,
     lastSnapshot = Some snapshot /\
     getHintIndex (Snapshot_getFeedback snapshot) = None) \/
  (exists snapshot previousHintIndex first others,
     lastSnapshot = Some snapshot /\
     getHintIndex (Snapshot_getFeedback snapshot) = Some previousHintIndex /\
     getParagraphs (Snapshot_getFeedback snapshot) = first :: others /\
     getContent first
     <> at_index (getMessages failingTest) previousHintIndex) ->
  exists feedback,
    _getBuggyOutputTestFeedback lastSnapshot failingTest r = Ok feedback /\
    getHintIndex feedback = Some 0.
Proof.
  assert (Hneq : forall a b, a <> b -> option_string_eqb a b = false).
  { intros [x|] [y|] Hab; simpl; try reflexivity.
    - apply String.eqb_neq. congruence.
    - congruence. }
  unfold _getBuggyOutputTestFeedback.
  intros [-> | [(snapshot & -> & Hidx)
               | (snapshot & k & first & others & -> & Hidx & Hpar & Hdiff)]].
  - simpl. eexists; split; reflexivity.
  - rewrite Hidx.
    destruct (Snapshot_getCodeEvalResult snapshot);
      simpl; eexists; split; reflexivity.
  - rewrite Hidx, Hpar, (Hneq _ _ Hdiff).
    destruct (Snapshot_getCodeEvalResult snapshot);
      simpl; eexists; split; reflexivity.
Qed.

(** ** Runtime errors *)

Lemma strip_prefix_app (p s : string) : strip_prefix p (p ++ s) = Some s.
Proof.
  induction p as [|a p IH]; simpl; [reflexivity|].
  now rewrite Ascii.eqb_refl.
Qed.

Lemma strip_prefix_Some (p s d : string) :
  strip_prefix p s = Some d -> s = p ++ d.
Proof.
  revert s. induction p as [|a p IH]; intros s; simpl.
  - now intros [= ->].
  - destruct s as [|b s]; [discriminate|].
    destruct (Ascii.eqb_spec a b) as [->|]; [|discriminate].
    intros H. now rewrite (IH _ H).
Qed.

Lemma all_digits_with_line (front back : string) :
  all_digits (front ++ "line " ++ back) = false.
Proof.
  induction front as [|c front IH]; [reflexivity|].
  change (all_digits (String c front ++ "line " ++ back))
    with (is_digit c && all_digits (front ++ "line " ++ back)).
  rewrite IH. apply andb_false_r.
Qed.

(** The expression cannot match before the final [line N]: a match there
    would need the letter [l] among digits or inside [line ] itself. *)
Lemma match_line_here_before (c : ascii) (front digits : string) :
  match_line_here (String c front ++ "line " ++ digits) = None.
Proof.
  unfold match_line_here.
  destruct (strip_prefix "line " (String c front ++ "line " ++ digits))
    as [[|d ds]|] eqn:Hstrip; try reflexivity.
  apply strip_prefix_Some in Hstrip.
  assert (Hds : all_digits (String d ds) = false); [|now rewrite Hds].
  destruct front as [|c1 [|c2 [|c3 [|c4 front]]]];
    simpl in Hstrip; try discriminate.
  injection Hstrip as _ _ _ _ _ Hrest.
  rewrite <- Hrest. apply all_digits_with_line.
Qed.

Lemma match_line_here_final (digits : string) :
  digits <> "" -> all_digits digits = true ->
  match_line_here ("line " ++ digits) = Some digits.
Proof.
  intros Hne Hall. unfold match_line_here.
  rewrite strip_prefix_app.
  destruct digits; [congruence | now rewrite Hall].
Qed.

Lemma replace_line_unfold (s : string) (replacer : string -> result string) :
  replace_line s replacer
  = match match_line_here s with
    | Some humanReadableLineNumber => replacer humanReadableLineNumber
    | None =>
        match s with
        | EmptyString => Ok EmptyString
        | String c rest =>
            fixed <- replace_line rest replacer ;;
            Ok (String c fixed)
        end
    end.
Proof.
  destruct s; reflexivity.
Qed.

Lemma replace_line_final (front digits : string)
    (replacer : string -> result string) :
  digits <> "" -> all_digits digits = true ->
  replace_line (front ++ "line " ++ digits) replacer
  = replacement <- replacer digits ;; Ok (front ++ replacement).
Proof.
  intros Hne Hall. induction front as [|c front IH].
  - change ("" ++ "line " ++ digits) with ("line " ++ digits).
    rewrite replace_line_unfold, (match_line_here_final _ Hne Hall).
    now destruct (replacer digits).
  - rewrite replace_line_unfold, match_line_here_before.
    change (String c front ++ "line " ++ digits)
      with (String c (front ++ "line " ++ digits)).
    cbv beta iota. rewrite IH. now destruct (replacer digits).
Qed.

Lemma at_index_Some {A : Type} (arr : list A) (i : Z) (x : A) :
  at_index arr i = Some x -> 0 <= i < len arr.
Proof.
  unfold at_index, len. destruct (Z.ltb_spec i 0); [discriminate|].
  intros Hnth. assert (Hlt : (Z.to_nat i < length arr)%nat)
    by (apply nth_error_Some; congruence).
  lia.
Qed.

(** C9: for an error string that ends in [line N], the line map is read
    at index [N - 1]: when the entry there is the marker of the test code
    the trace ends in [a line in the test code] in place of [line N];
    when it is a line index of the student's code the trace cites that
    line; and when the index is outside the line map no feedback is
    produced: the call throws, and with a renderable error input what it
    throws is the out-of-range error. *)
Theorem runtime_error_line_is_remapped (r : CodeEvalResult)
    (lines : list (option Z)) (front digits : string) :
  getErrorString r = Some (front ++ "line " ++ digits) ->
  digits <> "" ->
  all_digits digits = true ->
  let index := Number_of_digits digits - 1 in
  (forall readable,
     _jsToHumanReadable (getErrorInput r) = Ok readable ->
     at_index lines index = Some None ->
     _getRuntimeErrorFeedback r lines
     = Ok (runtimeErrorFeedback readable
             (front ++ "a line in the test code"))) /\
  (forall readable rawIndex,
     _jsToHumanReadable (getErrorInput r) = Ok readable ->
     at_index lines index = Some (Some rawIndex) ->
     _getRuntimeErrorFeedback r lines
     = Ok (runtimeErrorFeedback readable
             (front ++ "line " ++ String_of_Z (rawIndex + 1)))) /\
  (index < 0 \/ len lines <= index ->
   (exists e, _getRuntimeErrorFeedback r lines = Throw e) /\
   forall readable,
     _jsToHumanReadable (getErrorInput r) = Ok readable ->
     _getRuntimeErrorFeedback r lines
     = Throw (Error ("Line number index out of range: " ++
                     String_of_Z index))).
Proof.
  intros Herr Hne Hall index.
  assert (Hin : forall entry,
            at_index lines index = Some entry ->
            (index <? 0) || (index >=? len lines) = false).
  { intros entry Hentry. apply at_index_Some in Hentry.
    rewrite Z.geb_leb. apply orb_false_iff.
    split; [apply Z.ltb_ge | apply Z.leb_gt]; lia. }
  assert (Hout : index < 0 \/ len lines <= index ->
            (index <? 0) || (index >=? len lines) = true).
  { rewrite Z.geb_leb. intros [H|H]; apply orb_true_iff.
    - left. now apply Z.ltb_lt.
    - right. now apply Z.leb_le. }
  unfold _getRuntimeErrorFeedback. rewrite Herr.
  repeat split.
  - intros readable Hread Hentry. rewrite Hread. cbn [bind].
    rewrite (replace_line_final _ _ _ Hne Hall).
    fold index. rewrite (Hin _ Hentry), Hentry. reflexivity.
  - intros readable rawIndex Hread Hentry. rewrite Hread. cbn [bind].
    rewrite (replace_line_final _ _ _ Hne Hall).
    fold index. rewrite (Hin _ Hentry), Hentry. reflexivity.
  - destruct (_jsToHumanReadable (getErrorInput r)) as [readable|e];
      [|now exists e].
    cbn [bind]. rewrite (replace_line_final _ _ _ Hne Hall).
    fold index. rewrite (Hout H). eexists. reflexivity.
  - intros readable Hread. rewrite Hread. cbn [bind].
    rewrite (replace_line_final _ _ _ Hne Hall).
    fold index. rewrite (Hout H). reflexivity.
Qed.

(** ** Unrenderable values *)

(** C8: a value of no recognized kind (a function, a symbol, a big
    integer) makes the renderer throw, but the message of the error is the
    same fixed text whatever the value: the value was handed to [Error] as
    a second argument and is not part of the message. *)
Theorem unrecognized_value_is_not_named :
  forall (name description : string) (n : Z),
    _jsToHumanReadable (JFunction name)
    = Throw (Error "Could not make the following object human-readable: ")
    /\
    _jsToHumanReadable (JSymbol description)
    = Throw (Error "Could not make the following object human-readable: ")
    /\
    _jsToHumanReadable (JBigInt n)
    = Throw (Error "Could not make the following object human-readable: ").
Proof.
  intros name description n. repeat split.
Qed.

(** ** Error tracebacks *)

Lemma indexOf_zero (s p : string) :
  (indexOf s p =? 0) = startsWith s p.
Proof.
  unfold indexOf, startsWith.
  destruct s as [|b s].
  - now destruct p.
  - change (index 0 p (String b s))
      with (if prefix p (String b s) then Some 0%nat
            else match index 0 p s with
                 | Some n => Some (S n)
                 | None => None
                 end).
    destruct (prefix p (String b s)); [reflexivity|].
    destruct (index 0 p s); reflexivity.
Qed.

(** C10: [getErrorString] returns the message as it is when the message
    starts with [TimeLimitError]; otherwise, with a coordinate list that
    is not empty, it returns the message followed by [ on line N], N
    being the line number of the first coordinate. *)
Theorem getErrorString_appends_first_line (this : ErrorTraceback) :
  (startsWith (_errorMessage this) "TimeLimitError" = true ->
   ErrorTraceback_getErrorString this = Ok (_errorMessage this)) /\
  (forall first others,
     startsWith (_errorMessage this) "TimeLimitError" = false ->
     _tracebackCoordinates this = first :: others ->
     ErrorTraceback_getErrorString this
     = Ok (_errorMessage this ++ " on line " ++
           String_of_number (getLineNumber first))).
Proof.
  unfold ErrorTraceback_getErrorString, _getFirstTracebackLine.
  rewrite indexOf_zero. split.
  - now intros ->.
  - intros first others -> ->. reflexivity.
Qed.

(** * Further properties *)

(** ** The value renderer on any value *)

Lemma has_raw_control_app (a b : string) :
  has_raw_control (a ++ b) = has_raw_control a || has_raw_control b.
Proof.
  induction a as [|c a IH]; simpl; [reflexivity|].
  rewrite IH. now rewrite !orb_assoc.
Qed.

Lemma has_raw_control_join (sep : string) (elements : list string) :
  has_raw_control sep = false ->
  Forall (fun x => has_raw_control x = false) elements ->
  has_raw_control (join sep elements) = false.
Proof.
  intros Hsep Hall. induction Hall as [|x rest Hx Hrest IH]; [reflexivity|].
  destruct rest as [|y rest]; [exact Hx|].
  change (join sep (x :: y :: rest)) with (x ++ sep ++ join sep (y :: rest)).
  now rewrite !has_raw_control_app, Hx, Hsep, IH.
Qed.

Lemma has_raw_control_escape (s : string) : has_raw_control (escape s) = false.
Proof.
  induction s as [|c s IH]; [reflexivity|].
  cbn [escape]. rewrite has_raw_control_app, IH, orb_false_r.
  unfold escape_char.
  destruct (Ascii.eqb c tab) eqn:Htab; [reflexivity|].
  destruct (Ascii.eqb c newline) eqn:Hnl; [reflexivity|].
  simpl. now rewrite Htab, Hnl.
Qed.

Lemma has_raw_control_quoted (s : string) : has_raw_control (quoted s) = false.
Proof.
  unfold quoted.
  change (String dquote (escape s ++ String dquote ""))
    with (String dquote "" ++ escape s ++ String dquote "").
  now rewrite !has_raw_control_app, has_raw_control_escape.
Qed.

(** The renderer on any value: the rendering of the specification when
    the value is built from recognized kinds only, the fixed error as soon
    as it holds a value of another kind. *)
Lemma jsToHumanReadable_cases (value : jsval) :
  _jsToHumanReadable value
  = if recognized value then Ok (toDisplayString value)
    else Throw unrenderable.
Proof.
  induction value as
    [ | | s | n | b | elements IH | entries IH | name | description | n ]
    using jsval_ind; try reflexivity.
  - simpl. now rewrite humanReadableString_quoted.
  - assert (Hmap :
      (fix map_ (l : list jsval) : result (list string) :=
         match l with
         | [] => Ok []
         | arrayElement :: rest =>
             x <- _jsToHumanReadable arrayElement ;;
             xs <- map_ rest ;;
             Ok (x :: xs)
         end) elements
      = if forallb recognized elements
        then Ok (map toDisplayString elements)
        else Throw unrenderable).
    { induction IH as [|x rest Hx _ IHrest]; [reflexivity|].
      rewrite Hx. cbn [forallb].
      destruct (recognized x); [|reflexivity].
      cbn [bind andb]. rewrite IHrest.
      now destruct (forallb recognized rest). }
    simpl in Hmap |- *. rewrite Hmap.
    now destruct (forallb recognized elements).
  - assert (Hmap :
      (fix for_in (l : list (string * jsval)) : result (list string) :=
         match l with
         | [] => Ok []
         | (key, value) :: rest =>
             k <- Ok (humanReadableString key) ;;
             v <- _jsToHumanReadable value ;;
             ps <- for_in rest ;;
             Ok ((k ++ ": " ++ v) :: ps)
         end) entries
      = if forallb (fun entry => recognized (snd entry)) entries
        then Ok (map (fun entry =>
                        quoted (fst entry) ++ ": "
                        ++ toDisplayString (snd entry)) entries)
        else Throw unrenderable).
    { induction IH as [|[key x] rest Hx _ IHrest]; [reflexivity|].
      simpl in Hx. unfold bind at 1. rewrite Hx. cbn [forallb snd fst].
      destruct (recognized x); [|reflexivity].
      unfold bind at 1. rewrite IHrest, humanReadableString_quoted.
      now destruct (forallb (fun entry => recognized (snd entry)) rest). }
    simpl in Hmap |- *. rewrite Hmap.
    now destruct (forallb (fun entry => recognized (snd entry)) entries).
Qed.

(** X1: a value that holds a value of no recognized kind anywhere, at any
    depth of its sequences and mappings, is not rendered at all: the
    renderer throws the error of the unrecognized kind. *)
Theorem jsToHumanReadable_fails_on_nested_unrecognized (value : jsval) :
  recognized value = false ->
  _jsToHumanReadable value
  = Throw (Error "Could not make the following object human-readable: ").
Proof.
  intros H. now rewrite jsToHumanReadable_cases, H.
Qed.

Lemma toDisplayString_no_raw_control (value : jsval) :
  (forall n, has_raw_control (String_of_number n) = false) ->
  recognized value = true ->
  has_raw_control (toDisplayString value) = false.
Proof.
  intros Hnum.
  induction value as
    [ | | s | n | b | elements IH | entries IH | name | description | n ]
    using jsval_ind; intros Hrec; try reflexivity; try discriminate.
  - apply has_raw_control_quoted.
  - apply Hnum.
  - now destruct b.
  - cbn [toDisplayString].
    rewrite !has_raw_control_app, has_raw_control_join; try reflexivity.
    cbn [recognized] in Hrec.
    induction IH as [|x rest Hx _ IHrest]; [constructor|].
    cbn [forallb] in Hrec. apply andb_true_iff in Hrec as [Hx' Hrest'].
    constructor; [now apply Hx | now apply IHrest].
  - cbn [toDisplayString].
    rewrite !has_raw_control_app, has_raw_control_join; try reflexivity.
    cbn [recognized] in Hrec.
    induction IH as [|[key x] rest Hx _ IHrest]; [constructor|].
    cbn [forallb snd] in Hrec. apply andb_true_iff in Hrec as [Hx' Hrest'].
    constructor; [|now apply IHrest].
    cbn [fst snd] in Hx |- *.
    rewrite !has_raw_control_app, has_raw_control_quoted.
    now rewrite (Hx Hx').
Qed.

(** X2: when the printed form of a number holds neither a tab nor a
    newline, nothing the renderer returns does: whatever the strings and
    keys inside the value, the rendering is a single line. *)
Theorem jsToHumanReadable_is_single_line (value : jsval) (rendered : string) :
  (forall n, has_raw_control (String_of_number n) = false) ->
  _jsToHumanReadable value = Ok rendered ->
  has_raw_control rendered = false.
Proof.
  intros Hnum. rewrite jsToHumanReadable_cases.
  destruct (recognized value) eqn:Hrec; [|discriminate].
  intros [= <-]. now apply toDisplayString_no_raw_control.
Qed.

(** X3: the feedback for a failing correctness test shows the input, the
    observed output and the example in their renderings when all three
    are built from recognized kinds, and is not produced at all
    otherwise.  An empty output function name counts as none. *)
Theorem correctness_feedback_cases (outputFunctionName : option string)
    (correctnessTest : CorrectnessTest) (observedOutput : jsval) :
  _getCorrectnessTestFeedback outputFunctionName correctnessTest
    observedOutput
  = if recognized (getInput correctnessTest)
       && recognized observedOutput
       && recognized (getAnyAllowedOutput correctnessTest)
    then
      Ok (correctnessFeedback outputFunctionName
            (toDisplayString (getInput correctnessTest))
            (toDisplayString observedOutput)
            (toDisplayString (getAnyAllowedOutput correctnessTest)))
    else
      Throw (Error "Could not make the following object human-readable: ").
Proof.
  unfold _getCorrectnessTestFeedback.
  rewrite !jsToHumanReadable_cases.
  destruct outputFunctionName as [[|c name]|];
    destruct (recognized (getInput correctnessTest));
    destruct (recognized observedOutput);
    destruct (recognized (getAnyAllowedOutput correctnessTest));
    reflexivity.
Qed.

(** ** Completion *)

Lemma report_all_pass (lastSnapshot : option Snapshot) (r : CodeEvalResult)
    (refs : list TestRef) :
  Forall (fun ref => test_fails r ref = Ok false) refs ->
  report_first_failing lastSnapshot r refs = Ok None.
Proof.
  induction 1 as [|ref refs Href _ IH]; simpl; [reflexivity|].
  now rewrite Href.
Qed.

Lemma buggy_feedback_not_correct (lastSnapshot : option Snapshot)
    (test : BuggyOutputTest) (r : CodeEvalResult) (feedback : Feedback) :
  _getBuggyOutputTestFeedback lastSnapshot test r = Ok feedback ->
  isAnswerCorrect feedback = false.
Proof.
  unfold _getBuggyOutputTestFeedback.
  destruct (match lastSnapshot with None => _ | Some _ => _ end)
    as [hintIndex|e]; [|discriminate].
  now intros [= <-].
Qed.

Lemma correctness_feedback_not_correct (name : option string)
    (test : CorrectnessTest) (output : jsval) (feedback : Feedback) :
  _getCorrectnessTestFeedback name test output = Ok feedback ->
  isAnswerCorrect feedback = false.
Proof.
  unfold _getCorrectnessTestFeedback.
  rewrite !jsToHumanReadable_cases.
  destruct name as [[|c name]|];
    destruct (recognized (getInput test));
    destruct (recognized output);
    destruct (recognized (getAnyAllowedOutput test));
    try discriminate; now intros [= <-].
Qed.

Lemma runtime_feedback_not_correct (r : CodeEvalResult)
    (lines : list (option Z)) (feedback : Feedback) :
  _getRuntimeErrorFeedback r lines = Ok feedback ->
  isAnswerCorrect feedback = false.
Proof.
  unfold _getRuntimeErrorFeedback.
  destruct (_jsToHumanReadable (getErrorInput r)); [|discriminate].
  cbn [bind]. destruct (getErrorString r); [|discriminate].
  destruct (replace_line _ _); [|discriminate].
  now intros [= <-].
Qed.

Lemma report_inversion (lastSnapshot : option Snapshot) (r : CodeEvalResult)
    (refs : list TestRef) (found : option Feedback) :
  report_first_failing lastSnapshot r refs = Ok found ->
  match found with
  | Some feedback => isAnswerCorrect feedback = false
  | None => Forall (fun ref => test_fails r ref = Ok false) refs
  end.
Proof.
  induction refs as [|ref refs IH]; simpl.
  - intros [= <-]. constructor.
  - destruct (test_fails r ref) as [[|]|e] eqn:Href; simpl;
      [| |discriminate].
    + destruct (feedback_for lastSnapshot r ref) as [fb|e] eqn:Hfb;
        [|discriminate].
      intros [= <-]. destruct ref as [i j t|i j task t|i j t]; simpl in Hfb.
      * eapply buggy_feedback_not_correct; eassumption.
      * eapply correctness_feedback_not_correct; eassumption.
      * now injection Hfb as <-.
    + intros H. specialize (IH H). destruct found; [exact IH|].
      now constructor.
Qed.

(** X4: without an error string, when every test of the scan order
    passes, the selection returns the completion feedback, whose flag is
    set. *)
Theorem all_tests_pass_completes (lastSnapshot : option Snapshot)
    (tasks : list Task) (r : CodeEvalResult) (lines : list (option Z)) :
  truthy (getErrorString r) = false ->
  Forall (fun ref => test_fails r ref = Ok false) (scan_order tasks) ->
  _getFeedbackWithoutReinforcement lastSnapshot tasks r lines
  = Ok completedFeedback /\
  isAnswerCorrect completedFeedback = true.
Proof.
  intros Herr Hall. split; [|reflexivity].
  rewrite (selection_walks_scan _ _ _ _ Herr).
  now rewrite (report_all_pass _ _ _ Hall).
Qed.

(** X5: the completion flag is never set by mistake: a feedback returned
    with the flag set is the completion feedback, the evaluation result
    carries no error string, and every test of every task passes. *)
Theorem completion_flag_is_sound (lastSnapshot : option Snapshot)
    (tasks : list Task) (r : CodeEvalResult) (lines : list (option Z))
    (feedback : Feedback) :
  _getFeedbackWithoutReinforcement lastSnapshot tasks r lines = Ok feedback ->
  isAnswerCorrect feedback = true ->
  feedback = completedFeedback /\
  truthy (getErrorString r) = false /\
  Forall (fun ref => test_fails r ref = Ok false) (scan_order tasks).
Proof.
  intros Hsel Hflag.
  destruct (truthy (getErrorString r)) eqn:Herr.
  - exfalso. unfold _getFeedbackWithoutReinforcement in Hsel.
    destruct (getErrorString r) as [[|c errorString]|]; try discriminate.
    destruct (startsWith _ "TimeLimitError");
      [injection Hsel as <-; discriminate|].
    destruct (startsWith _ "ExternalError: RangeError");
      [injection Hsel as <-; discriminate|].
    apply runtime_feedback_not_correct in Hsel. congruence.
  - rewrite (selection_walks_scan _ _ _ _ Herr) in Hsel.
    destruct (report_first_failing lastSnapshot r (scan_order tasks))
      as [found|e] eqn:Hreport; [|discriminate].
    apply report_inversion in Hreport.
    destruct found as [fb|]; simpl in Hsel; injection Hsel as <-.
    + congruence.
    + auto.
Qed.

(** X6: without an error string, when the first test of the scan order
    that does not pass is one whose task has no row in the results, the
    selection throws a [TypeError] instead of returning feedback. *)
Theorem missing_result_row_throws (lastSnapshot : option Snapshot)
    (tasks : list Task) (r : CodeEvalResult) (lines : list (option Z))
    (before after : list TestRef) (ref : TestRef) :
  truthy (getErrorString r) = false ->
  scan_order tasks = (before ++ ref :: after)%list ->
  Forall (fun earlier => test_fails r earlier = Ok false) before ->
  test_fails r ref = Throw TypeError ->
  _getFeedbackWithoutReinforcement lastSnapshot tasks r lines
  = Throw TypeError.
Proof.
  intros Herr Hscan Hbefore Hthrow.
  rewrite (selection_walks_scan _ _ _ _ Herr), Hscan.
  rewrite report_app, (report_all_pass _ _ _ Hbefore).
  simpl. now rewrite Hthrow.
Qed.

(** ** Hints *)

Lemma at_index_in_range {A : Type} (arr : list A) (i : Z) :
  0 <= i < len arr -> exists x, at_index arr i = Some x.
Proof.
  unfold at_index, len. intros [Hlo Hhi].
  destruct (Z.ltb_spec i 0); [lia|].
  destruct (nth_error arr (Z.to_nat i)) as [x|] eqn:Hnth; [now exists x|].
  apply nth_error_None in Hnth. lia.
Qed.

Lemma at_index_None {A : Type} (arr : list A) (i : Z) :
  at_index arr i = None -> i < 0 \/ len arr <= i.
Proof.
  unfold at_index, len. destruct (Z.ltb_spec i 0); [now left|].
  intros Hnth. apply nth_error_None in Hnth. right. lia.
Qed.

Lemma option_string_eqb_eq (a b : option string) :
  option_string_eqb a b = true -> a = b.
Proof.
  destruct a as [x|], b as [y|]; simpl; try discriminate; try reflexivity.
  intros H. apply String.eqb_eq in H. now subst.
Qed.

(** X7: for a buggy-output test with at least one hint, and a previous
    feedback (if any) whose first paragraph holds a string, the feedback
    returned holds exactly one text paragraph, the hint at the hint index
    it records, and that index lies within the hints: the code never
    reads past the last hint. *)
Theorem hint_shown_is_hint_at_index (lastSnapshot : option Snapshot)
    (failingTest : BuggyOutputTest) (r : CodeEvalResult)
    (feedback : Feedback) :
  getMessages failingTest <> [] ->
  (forall snapshot first others,
     lastSnapshot = Some snapshot ->
     getParagraphs (Snapshot_getFeedback snapshot) = first :: others ->
     getContent first <> None) ->
  _getBuggyOutputTestFeedback lastSnapshot failingTest r = Ok feedback ->
  exists hintIndex hint,
    getHintIndex feedback = Some hintIndex /\
    0 <= hintIndex < len (getMessages failingTest) /\
    at_index (getMessages failingTest) hintIndex = Some hint /\
    getParagraphs feedback
    = [{| getType := PARAGRAPH_TYPE_TEXT; getContent := Some hint |}].
Proof.
  intros Hhints Hstring Hfb.
  assert (Hshape : forall hintIndex,
            0 <= hintIndex < len (getMessages failingTest) ->
            feedback = hintFeedbackAt (getMessages failingTest) hintIndex ->
            exists hintIndex hint,
              getHintIndex feedback = Some hintIndex /\
              0 <= hintIndex < len (getMessages failingTest) /\
              at_index (getMessages failingTest) hintIndex = Some hint /\
              getParagraphs feedback
              = [{| getType := PARAGRAPH_TYPE_TEXT;
                    getContent := Some hint |}]).
  { intros k Hk ->. destruct (at_index_in_range _ _ Hk) as [hint Hhint].
    exists k, hint. unfold hintFeedbackAt. rewrite Hhint.
    repeat split; auto; lia. }
  assert (Hzero : 0 <= 0 < len (getMessages failingTest)).
  { unfold len. destruct (getMessages failingTest); [congruence|].
    simpl length. lia. }
  unfold _getBuggyOutputTestFeedback in Hfb.
  destruct lastSnapshot as [snapshot|];
    [|injection Hfb as <-; now apply (Hshape 0)].
  destruct (Snapshot_getCodeEvalResult snapshot) as [previousResult|];
    [|injection Hfb as <-; now apply (Hshape 0)].
  destruct (getHintIndex (Snapshot_getFeedback snapshot)) as [previous|];
    [|injection Hfb as <-; now apply (Hshape 0)].
  destruct (getParagraphs (Snapshot_getFeedback snapshot))
    as [|first others] eqn:Hpar; [discriminate|].
  specialize (Hstring snapshot first others eq_refl Hpar).
  destruct (option_string_eqb (getContent first)
              (at_index (getMessages failingTest) previous)) eqn:Hsame;
    [|injection Hfb as <-; now apply (Hshape 0)].
  apply option_string_eqb_eq in Hsame.
  destruct (at_index (getMessages failingTest) previous) as [hint|] eqn:Hat;
    [|congruence].
  apply at_index_Some in Hat.
  destruct ((getPreprocessedCode previousResult =? getPreprocessedCode r)%string
            || (previous =? len (getMessages failingTest) - 1)) eqn:Hkeep;
    injection Hfb as <-.
  - now apply (Hshape previous).
  - apply (Hshape (previous + 1)); [|reflexivity].
    apply orb_false_iff in Hkeep as [_ Hlast].
    apply Z.eqb_neq in Hlast. lia.
Qed.

Lemma hint_step (failingTest : BuggyOutputTest)
    (previousResult r : CodeEvalResult) (k : Z) :
  0 <= k < len (getMessages failingTest) ->
  getPreprocessedCode previousResult <> getPreprocessedCode r ->
  _getBuggyOutputTestFeedback
    (Some {| Snapshot_getCodeEvalResult := Some previousResult;
             Snapshot_getFeedback :=
               hintFeedbackAt (getMessages failingTest) k |})
    failingTest r
  = Ok (hintFeedbackAt (getMessages failingTest)
          (Z.min (k + 1) (len (getMessages failingTest) - 1))).
Proof.
  intros Hk Hcode. unfold _getBuggyOutputTestFeedback.
  cbn [Snapshot_getCodeEvalResult Snapshot_getFeedback hintFeedbackAt
       setHintIndex getHintIndex getParagraphs appendTextParagraph
       appendParagraph create app getContent].
  assert (Hrefl : forall o, option_string_eqb o o = true)
    by (intros [x|]; simpl; [apply String.eqb_refl | reflexivity]).
  rewrite Hrefl. apply String.eqb_neq in Hcode. rewrite Hcode.
  cbn [orb].
  destruct (Z.eqb_spec k (len (getMessages failingTest) - 1)) as [Hlast|Hlast];
    cbn [bind].
  - replace (Z.min (k + 1) (len (getMessages failingTest) - 1)) with k by lia.
    reflexivity.
  - replace (Z.min (k + 1) (len (getMessages failingTest) - 1))
      with (k + 1) by lia.
    reflexivity.
Qed.

Lemma hint_session_from (failingTest : BuggyOutputTest)
    (submissions : list CodeEvalResult) :
  forall (previousResult : CodeEvalResult) (k : Z),
    0 <= k < len (getMessages failingTest) ->
    code_changes (Some (getPreprocessedCode previousResult)) submissions
    = true ->
    exists lastResult,
      hintSession failingTest
        (Some {| Snapshot_getCodeEvalResult := Some previousResult;
                 Snapshot_getFeedback :=
                   hintFeedbackAt (getMessages failingTest) k |})
        submissions
      = Ok (Some {| Snapshot_getCodeEvalResult := Some lastResult;
                    Snapshot_getFeedback :=
                      hintFeedbackAt (getMessages failingTest)
                        (Z.min (k + len submissions)
                           (len (getMessages failingTest) - 1)) |}).
Proof.
  induction submissions as [|r later IH]; intros previousResult k Hk Hchg.
  - exists previousResult. cbn [hintSession].
    replace (Z.min (k + len (@nil CodeEvalResult))
               (len (getMessages failingTest) - 1)) with k
      by (unfold len at 1; simpl length; lia).
    reflexivity.
  - cbn [code_changes] in Hchg. apply andb_true_iff in Hchg as [Hne Hlater].
    apply negb_true_iff, String.eqb_neq in Hne.
    cbn [hintSession]. rewrite (hint_step _ _ _ _ Hk Hne). cbn [bind].
    destruct (IH r (Z.min (k + 1) (len (getMessages failingTest) - 1)))
      as [lastResult Hlast]; [lia | exact Hlater |].
    exists lastResult. rewrite Hlast.
    replace (Z.min (Z.min (k + 1) (len (getMessages failingTest) - 1)
                    + len later)
               (len (getMessages failingTest) - 1))
      with (Z.min (k + len (r :: later))
              (len (getMessages failingTest) - 1)); [reflexivity|].
    unfold len. simpl length. lia.
Qed.

(** X8: a session that starts without a snapshot and in which every
    submission is recorded with its feedback: after [n + 1] submissions
    that all run into the same buggy-output test, each with a
    preprocessed code different from the one before, the hint index is
    [n], capped at the index of the last hint. *)
Theorem hint_session_escalates (failingTest : BuggyOutputTest)
    (firstResult : CodeEvalResult) (later : list CodeEvalResult) :
  getMessages failingTest <> [] ->
  code_changes None (firstResult :: later) = true ->
  exists lastResult,
    hintSession failingTest None (firstResult :: later)
    = Ok (Some {| Snapshot_getCodeEvalResult := Some lastResult;
                  Snapshot_getFeedback :=
                    hintFeedbackAt (getMessages failingTest)
                      (Z.min (len later)
                         (len (getMessages failingTest) - 1)) |}).
Proof.
  intros Hhints Hchg.
  assert (Hzero : 0 <= 0 < len (getMessages failingTest)).
  { unfold len. destruct (getMessages failingTest); [congruence|].
    simpl length. lia. }
  cbn [code_changes andb] in Hchg.
  destruct (hint_session_from failingTest later firstResult 0 Hzero Hchg)
    as [lastResult Hlast].
  exists lastResult. exact Hlast.
Qed.

(** ** Runtime errors without a line reference *)

Lemma match_line_here_Some (s digits : string) :
  match_line_here s = Some digits ->
  s = "line " ++ digits /\ digits <> "" /\ all_digits digits = true.
Proof.
  unfold match_line_here.
  destruct (strip_prefix "line " s) as [[|d ds]|] eqn:Hstrip;
    try discriminate.
  destruct (all_digits (String d ds)) eqn:Hall; [|discriminate].
  intros [= <-]. apply strip_prefix_Some in Hstrip.
  repeat split; [exact Hstrip | discriminate | exact Hall].
Qed.

Lemma replace_line_no_match (s : string)
    (replacer : string -> result string) :
  (forall front digits,
     s = front ++ "line " ++ digits ->
     digits = "" \/ all_digits digits = false) ->
  replace_line s replacer = Ok s.
Proof.
  induction s as [|c s IH]; intros Hno.
  - reflexivity.
  - rewrite replace_line_unfold.
    destruct (match_line_here (String c s)) as [digits|] eqn:Hmatch.
    + apply match_line_here_Some in Hmatch as (Hs & Hne & Hall).
      destruct (Hno "" digits Hs); congruence.
    + rewrite IH; [reflexivity|].
      intros front digits Hs. apply (Hno (String c front) digits).
      now rewrite Hs.
Qed.

Lemma ends_in_digit_digits (digits : string) :
  digits <> "" -> all_digits digits = true -> ends_in_digit digits = true.
Proof.
  induction digits as [|c rest IH]; [congruence|].
  intros _ Hall. cbn [all_digits] in Hall.
  apply andb_true_iff in Hall as [Hc Hrest].
  destruct rest as [|c' rest]; [exact Hc|].
  change (ends_in_digit (String c (String c' rest)))
    with (ends_in_digit (String c' rest)).
  apply IH; [discriminate | exact Hrest].
Qed.

Lemma ends_in_digit_app (front back : string) :
  back <> "" -> ends_in_digit (front ++ back) = ends_in_digit back.
Proof.
  intros Hne. induction front as [|c front IH]; [reflexivity|].
  change (String c front ++ back) with (String c (front ++ back)).
  destruct (front ++ back) as [|c' rest] eqn:Happ.
  - destruct front; [simpl in Happ; congruence | discriminate].
  - exact IH.
Qed.

(** A string whose last character is no digit does not end in a line
    reference. *)
Lemma no_line_reference (s : string) :
  ends_in_digit s = false ->
  forall front digits,
    s = front ++ "line " ++ digits ->
    digits = "" \/ all_digits digits = false.
Proof.
  intros Hend front digits ->.
  destruct digits as [|d ds]; [now left|]. right.
  destruct (all_digits (String d ds)) eqn:Hall; [|reflexivity].
  rewrite ends_in_digit_app in Hend by discriminate.
  change ("line " ++ String d ds)
    with (String "l" (String "i" (String "n" (String "e"
            (String " " (String d ds)))))) in Hend.
  change (ends_in_digit (String d ds) = false) in Hend.
  rewrite ends_in_digit_digits in Hend; [discriminate | discriminate | exact Hall].
Qed.

(** X9: when the error string does not end in [line N], the trace shown
    is the error string as it is, and the line map is not looked at: no
    line map, not even an empty one, makes the call throw. *)
Theorem runtime_error_without_line_reference (r : CodeEvalResult)
    (lines : list (option Z)) (errorString readable : string) :
  getErrorString r = Some errorString ->
  _jsToHumanReadable (getErrorInput r) = Ok readable ->
  (forall front digits,
     errorString = front ++ "line " ++ digits ->
     digits = "" \/ all_digits digits = false) ->
  _getRuntimeErrorFeedback r lines
  = Ok (runtimeErrorFeedback readable errorString).
Proof.
  intros Herr Hread Hno. unfold _getRuntimeErrorFeedback.
  rewrite Hread, Herr. cbn [bind].
  now rewrite (replace_line_no_match _ _ Hno).
Qed.

(** ** Decimal line numbers *)

Lemma all_digits_of_uint (d : Decimal.uint) :
  all_digits (NilEmpty.string_of_uint d) = true.
Proof.
  induction d; simpl; auto.
Qed.

Lemma Number_of_digits_acc (d : Decimal.uint) :
  forall acc : positive,
    (fix go (acc : Z) (s : string) : Z :=
       match s with
       | EmptyString => acc
       | String c rest =>
           go (10 * acc + Z.of_nat (nat_of_ascii c - 48)) rest
       end) (Z.pos acc) (NilEmpty.string_of_uint d)
    = Z.pos (Pos.of_uint_acc d acc).
Proof.
  induction d; intros acc; [reflexivity | ..];
    cbn [NilEmpty.string_of_uint Pos.of_uint_acc];
    rewrite <- IHd; f_equal;
    match goal with
    | |- context [Z.of_nat ?x] =>
        let v := eval vm_compute in (Z.of_nat x) in
        change (Z.of_nat x) with v
    end; lia.
Qed.

Lemma Number_of_digits_of_uint (d : Decimal.uint) :
  Number_of_digits (NilEmpty.string_of_uint d) = Z.of_N (Pos.of_uint d).
Proof.
  unfold Number_of_digits.
  induction d; [reflexivity | exact IHd | ..];
    cbn [NilEmpty.string_of_uint Pos.of_uint];
    apply (Number_of_digits_acc d 1%positive) ||
    apply (Number_of_digits_acc d 2%positive) ||
    apply (Number_of_digits_acc d 3%positive) ||
    apply (Number_of_digits_acc d 4%positive) ||
    apply (Number_of_digits_acc d 5%positive) ||
    apply (Number_of_digits_acc d 6%positive) ||
    apply (Number_of_digits_acc d 7%positive) ||
    apply (Number_of_digits_acc d 8%positive) ||
    apply (Number_of_digits_acc d 9%positive).
Qed.

(** Printing a line number and reading it back gives the number. *)
Lemma Number_of_String (n : Z) :
  0 <= n ->
  String_of_Z n <> "" /\
  all_digits (String_of_Z n) = true /\
  Number_of_digits (String_of_Z n) = n.
Proof.
  intros Hn. unfold String_of_Z. destruct n as [|p|p]; [| |lia].
  - repeat split. discriminate.
  - cbn [Z.to_int NilZero.string_of_int].
    assert (Hof := DecimalPos.Unsigned.of_to p).
    assert (Hnil : Pos.to_uint p <> Decimal.Nil)
      by (intros H; rewrite H in Hof; discriminate Hof).
    assert (Hsame : NilZero.string_of_uint (Pos.to_uint p)
                    = NilEmpty.string_of_uint (Pos.to_uint p))
      by (destruct (Pos.to_uint p); [congruence | reflexivity ..]).
    rewrite Hsame. repeat split.
    + destruct (Pos.to_uint p); [congruence | discriminate ..].
    + apply all_digits_of_uint.
    + now rewrite Number_of_digits_of_uint, Hof.
Qed.

(** ** Error tracebacks and the feedback for them *)

Lemma string_app_assoc (a b c : string) : (a ++ b) ++ c = a ++ b ++ c.
Proof.
  induction a as [|x a IH]; simpl; [reflexivity | now rewrite IH].
Qed.

Lemma prefix_app (p rest : string) : prefix p (p ++ rest) = true.
Proof.
  induction p as [|c p IH]; simpl; [now destruct rest|].
  destruct (ascii_dec c c); [exact IH | congruence].
Qed.

Lemma prefix_split (p s : string) :
  prefix p s = true -> exists rest, s = p ++ rest.
Proof.
  revert s. induction p as [|c p IH]; intros s H.
  - now exists s.
  - destruct s as [|c' s]; [discriminate|]. simpl in H.
    destruct (ascii_dec c c') as [->|]; [|discriminate].
    destruct (IH s H) as [rest ->]. now exists rest.
Qed.

(** X10: [getErrorString] throws in one case only, a message that does
    not start with [TimeLimitError] together with an empty coordinate
    list, and what it throws then is a [TypeError]. *)
Theorem getErrorString_throws_without_coordinates (this : ErrorTraceback) :
  (startsWith (_errorMessage this) "TimeLimitError" = false ->
   _tracebackCoordinates this = [] ->
   ErrorTraceback_getErrorString this = Throw TypeError) /\
  (forall e,
     ErrorTraceback_getErrorString this = Throw e ->
     e = TypeError /\
     startsWith (_errorMessage this) "TimeLimitError" = false /\
     _tracebackCoordinates this = []).
Proof.
  unfold ErrorTraceback_getErrorString, _getFirstTracebackLine.
  rewrite indexOf_zero. split.
  - now intros -> ->.
  - intros e.
    destruct (startsWith (_errorMessage this) "TimeLimitError");
      [discriminate|].
    destruct (_tracebackCoordinates this); [|discriminate].
    intros [= <-]. auto.
Qed.

Lemma substring_at (s p : string) :
  forall k,
    p <> "" ->
    substring k (String.length p) s = p ->
    exists front rest, s = front ++ p ++ rest /\ String.length front = k.
Proof.
  assert (Hzero : forall p s,
            substring 0 (String.length p) s = p ->
            exists rest, s = p ++ rest).
  { clear. induction p as [|c p IH]; intros s H.
    - now exists s.
    - destruct s as [|c' s]; [discriminate|]. simpl in H.
      injection H as -> H. destruct (IH s H) as [rest ->]. now exists rest. }
  induction s as [|c s IH]; intros k Hp H.
  - destruct k, p; simpl in H; congruence.
  - destruct k as [|k].
    + destruct (Hzero _ _ H) as [rest Hrest].
      exists "", rest. now split.
    + simpl in H. destruct (IH k Hp H) as (front & rest & -> & Hlen).
      exists (String c front), rest. split; [reflexivity|].
      simpl. now rewrite Hlen.
Qed.

Lemma substring_front (front rest : string) :
  substring 0 (String.length front) (front ++ rest) = front.
Proof.
  induction front as [|c front IH]; simpl.
  - now destruct rest.
  - now rewrite IH.
Qed.

Lemma length_app (a b : string) :
  String.length (a ++ b) = (String.length a + String.length b)%nat.
Proof.
  induction a as [|c a IH]; simpl; [reflexivity | now rewrite IH].
Qed.

Lemma slice_front (front rest : string) :
  slice (front ++ rest) 0 (Z.of_nat (String.length front)) = front.
Proof.
  unfold slice. rewrite length_app.
  destruct (Z.ltb_spec (Z.of_nat (String.length front)) 0); [lia|].
  cbn [Z.ltb Z.compare].
  replace (Z.min 0 _) with 0 by lia.
  replace (Z.min (Z.of_nat (String.length front)) _)
    with (Z.of_nat (String.length front)) by lia.
  rewrite Z.sub_0_r, Nat2Z.id. apply substring_front.
Qed.

(** X11: when the string of a Skulpt error holds [ on line], the message
    of the traceback built from it is the part of the string before the
    first [ on line]. *)
Theorem fromSkulptError_cuts_at_on_line (skulptError : SkulptError) :
  0 <= indexOf (SkulptError_toString skulptError) " on line" ->
  exists rest,
    SkulptError_toString skulptError
    = _errorMessage (fromSkulptError skulptError) ++ " on line" ++ rest /\
    Z.of_nat (String.length (_errorMessage (fromSkulptError skulptError)))
    = indexOf (SkulptError_toString skulptError) " on line".
Proof.
  unfold fromSkulptError, ErrorTraceback_create. cbn [_errorMessage].
  unfold indexOf.
  destruct (index 0 " on line" (SkulptError_toString skulptError))
    as [k|] eqn:Hindex; [intros _ | lia].
  apply index_correct1 in Hindex.
  destruct (substring_at _ " on line" k ltac:(discriminate) Hindex)
    as (front & rest & Hs & Hlen).
  exists rest. rewrite Hs, <- Hlen, slice_front. now split.
Qed.

Lemma slice_drop_last (front : string) (c : ascii) :
  slice (front ++ String c "") 0 (-1) = front.
Proof.
  unfold slice. rewrite length_app. cbn [String.length Z.ltb Z.compare].
  replace (Z.min 0 _) with 0 by lia.
  replace (Z.max _ 0) with (Z.of_nat (String.length front)) by lia.
  rewrite Z.sub_0_r, Nat2Z.id. apply substring_front.
Qed.

(** X12: when the string of a Skulpt error holds no [ on line], the
    message of the traceback built from it is the string without its last
    character: the index -1 of the failed search is used as the end of
    the slice. *)
Theorem fromSkulptError_drops_last_character (skulptError : SkulptError)
    (front : string) (c : ascii) :
  SkulptError_toString skulptError = front ++ String c "" ->
  indexOf (SkulptError_toString skulptError) " on line" = -1 ->
  _errorMessage (fromSkulptError skulptError) = front.
Proof.
  intros Hs Hindex. unfold fromSkulptError, ErrorTraceback_create.
  cbn [_errorMessage]. rewrite Hindex, Hs. apply slice_drop_last.
Qed.

(** X13: a Skulpt error whose string is a message, [ on line ] and the
    printed line number of its first traceback line, the message not
    starting with [TimeLimitError] and [ on line] not occurring before
    the end of the message, gets its own string back from
    [getErrorString] after [fromSkulptError]. *)
Theorem skulpt_error_string_round_trip (skulptError : SkulptError)
    (message : string) (first : SkulptTraceLine)
    (others : list SkulptTraceLine) :
  SkulptError_toString skulptError
  = message ++ " on line " ++ String_of_number (lineno first) ->
  indexOf (SkulptError_toString skulptError) " on line"
  = Z.of_nat (String.length message) ->
  startsWith message "TimeLimitError" = false ->
  traceback skulptError = first :: others ->
  ErrorTraceback_getErrorString (fromSkulptError skulptError)
  = Ok (SkulptError_toString skulptError).
Proof.
  intros Hs Hindex Htime Htrace.
  unfold ErrorTraceback_getErrorString, _getFirstTracebackLine,
    fromSkulptError, ErrorTraceback_create.
  cbn [_errorMessage _tracebackCoordinates].
  rewrite Hindex, Htrace, indexOf_zero, Hs, slice_front, Htime.
  reflexivity.
Qed.

(** X14: the error string [getErrorString] returns for a traceback whose
    message starts with [TimeLimitError] selects the timeout feedback, and
    the one it returns for a message that starts with
    [ExternalError: RangeError] selects the infinite-recursion feedback,
    whatever line the traceback names. *)
Theorem traceback_prefix_selects_feedback (this : ErrorTraceback)
    (errorString : string) (lastSnapshot : option Snapshot)
    (tasks : list Task) (r : CodeEvalResult) (lines : list (option Z)) :
  ErrorTraceback_getErrorString this = Ok errorString ->
  getErrorString r = Some errorString ->
  (startsWith (_errorMessage this) "TimeLimitError" = true ->
   _getFeedbackWithoutReinforcement lastSnapshot tasks r lines
   = Ok (_getTimeoutErrorFeedback tt)) /\
  (startsWith (_errorMessage this) "ExternalError: RangeError" = true ->
   _getFeedbackWithoutReinforcement lastSnapshot tasks r lines
   = Ok (_getInfiniteLoopFeedback tt)).
Proof.
  unfold ErrorTraceback_getErrorString, _getFirstTracebackLine.
  rewrite indexOf_zero. intros Hes Hr.
  unfold _getFeedbackWithoutReinforcement. rewrite Hr. split; intros Hp.
  - rewrite Hp in Hes. injection Hes as <-.
    unfold startsWith in Hp |- *.
    destruct (_errorMessage this) as [|c message]; [discriminate|].
    now rewrite Hp.
  - unfold startsWith in Hp. destruct (prefix_split _ _ Hp) as [rest Hm].
    rewrite Hm in Hes.
    change (startsWith ("ExternalError: RangeError" ++ rest)
              "TimeLimitError") with false in Hes.
    destruct (_tracebackCoordinates this) as [|first others];
      [discriminate|].
    cbn [bind] in Hes. injection Hes as <-.
    unfold startsWith.
    match goal with
    | |- context [prefix "TimeLimitError" ?x] =>
        replace (prefix "TimeLimitError" x) with false by reflexivity;
        replace (prefix "ExternalError: RangeError" x) with true; [reflexivity|]
    end.
    symmetry. apply (prefix_app "ExternalError: RangeError").
Qed.

(** X15: the error string [getErrorString] returns for a traceback whose
    first line is line [N] (printed in decimal) is remapped at index
    [N - 1] of the line map: the trace names the test code when the entry
    there is the marker, the line after the recorded index when it is a
    number, and the call throws the out-of-range error when the line map
    has no such index. *)
Theorem traceback_line_is_remapped (this : ErrorTraceback)
    (first : TracebackCoordinates) (others : list TracebackCoordinates)
    (N : Z) (errorString readable : string) (r : CodeEvalResult)
    (lines : list (option Z)) :
  _tracebackCoordinates this = first :: others ->
  0 <= N ->
  String_of_number (getLineNumber first) = String_of_Z N ->
  startsWith (_errorMessage this) "TimeLimitError" = false ->
  ErrorTraceback_getErrorString this = Ok errorString ->
  getErrorString r = Some errorString ->
  _jsToHumanReadable (getErrorInput r) = Ok readable ->
  _getRuntimeErrorFeedback r lines
  = match at_index lines (N - 1) with
    | Some None =>
        Ok (runtimeErrorFeedback readable
              (_errorMessage this ++ " on a line in the test code"))
    | Some (Some rawIndex) =>
        Ok (runtimeErrorFeedback readable
              (_errorMessage this ++ " on line " ++
               String_of_Z (rawIndex + 1)))
    | None =>
        Throw (Error ("Line number index out of range: " ++
                      String_of_Z (N - 1)))
    end.
Proof.
  intros Hcoords HN Hprint Htime Hes Hr Hread.
  unfold ErrorTraceback_getErrorString, _getFirstTracebackLine in Hes.
  rewrite indexOf_zero, Htime, Hcoords in Hes. cbn [bind] in Hes.
  injection Hes as <-. rewrite Hprint in Hr.
  destruct (Number_of_String N HN) as (Hne & Hall & Hnum).
  unfold _getRuntimeErrorFeedback. rewrite Hread, Hr. cbn [bind].
  match goal with
  | |- context [replace_line ?s _] =>
      replace s
        with ((_errorMessage this ++ " on ") ++ "line " ++ String_of_Z N)
        by (now rewrite string_app_assoc)
  end.
  rewrite (replace_line_final _ _ _ Hne Hall), Hnum.
  destruct (at_index lines (N - 1)) as [[rawIndex|]|] eqn:Hentry.
  - assert (Hin : (N - 1 <? 0) || (N - 1 >=? len lines) = false).
    { apply at_index_Some in Hentry. rewrite Z.geb_leb.
      apply orb_false_iff. split; [apply Z.ltb_ge | apply Z.leb_gt]; lia. }
    rewrite Hin. cbn [bind].
    now rewrite (string_app_assoc (_errorMessage this) " on " _).
  - assert (Hin : (N - 1 <? 0) || (N - 1 >=? len lines) = false).
    { apply at_index_Some in Hentry. rewrite Z.geb_leb.
      apply orb_false_iff. split; [apply Z.ltb_ge | apply Z.leb_gt]; lia. }
    rewrite Hin. cbn [bind].
    now rewrite (string_app_assoc (_errorMessage this) " on " _).
  - assert (Hout : (N - 1 <? 0) || (N - 1 >=? len lines) = true).
    { apply at_index_None in Hentry. rewrite Z.geb_leb.
      apply orb_true_iff. destruct Hentry;
        [left; now apply Z.ltb_lt | right; now apply Z.leb_le]. }
    now rewrite Hout.
Qed.

(** ** [getFeedback] *)

(** X16: when there is no error string and every test of every task
    passes, [getFeedback] returns the completion feedback together with
    the reinforcement generated for the last task; with no task at all it
    still returns the completion feedback, without a reinforcement. *)
Theorem getFeedback_on_completion (lastSnapshot : option Snapshot)
    (tasks : list Task) (r : CodeEvalResult) (lines : list (option Z)) :
  truthy (getErrorString r) = false ->
  Forall (fun ref => test_fails r ref = Ok false) (scan_order tasks) ->
  getFeedback lastSnapshot tasks r lines
  = Ok (completedFeedback,
        match tasks with
        | [] => None
        | first :: others => Some (getReinforcement (last others first) r)
        end).
Proof.
  intros Herr Hall. unfold getFeedback.
  rewrite (selection_walks_scan _ _ _ _ Herr), (report_all_pass _ _ _ Hall).
  cbn [bind]. rewrite Herr. now destruct tasks.
Qed.

(** X17: with an error string, [getFeedback] never asks for a
    reinforcement, and it throws exactly when the runtime-error feedback
    does. *)
Theorem getFeedback_on_error (lastSnapshot : option Snapshot)
    (tasks : list Task) (r : CodeEvalResult) (lines : list (option Z)) :
  truthy (getErrorString r) = true ->
  getFeedback lastSnapshot tasks r lines
  = feedback <-
      _getFeedbackWithoutReinforcement None [] r lines ;;
    Ok (feedback, None).
Proof.
  intros Herr. unfold getFeedback.
  assert (Hsame :
    _getFeedbackWithoutReinforcement lastSnapshot tasks r lines
    = _getFeedbackWithoutReinforcement None [] r lines).
  { unfold _getFeedbackWithoutReinforcement.
    destruct (getErrorString r) as [[|c errorString]|];
      try discriminate; reflexivity. }
  rewrite Hsame, Herr.
  destruct (_getFeedbackWithoutReinforcement None [] r lines);
    [now destruct tasks | reflexivity].
Qed.

(** ** Prerequisite failures *)

(** X18: [getPrereqFailureFeedback] throws for [null] and for a failure
    of none of the three kinds, with the messages below (the second one
    with the comma of a [join()] without separator), and returns a
    feedback that is not marked correct, carries no hint index and starts
    with a text paragraph in every other case. *)
Theorem getPrereqFailureFeedback_errors :
  getPrereqFailureFeedback None
  = Throw (Error "getPrereqFailureFeedback() called with 0 failures.") /\
  forall failure,
    (prereqBranch failure = 3%nat ->
     getPrereqFailureFeedback (Some failure)
     = Throw (Error ("Unrecognized prereq check failure type ," ++
                     "in getPrereqFailureFeedback()."))) /\
    (prereqBranch failure <> 3%nat ->
     exists feedback text others,
       getPrereqFailureFeedback (Some failure) = Ok feedback /\
       isAnswerCorrect feedback = false /\
       getHintIndex feedback = None /\
       getParagraphs feedback
       = {| getType := PARAGRAPH_TYPE_TEXT; getContent := Some text |}
         :: others).
Proof.
  split; [reflexivity|]. intros failure.
  unfold prereqBranch, getPrereqFailureFeedback.
  destruct (isMissingStarterCode failure), (isBadImport failure),
    (hasGlobalCode failure); split; intros H;
    try reflexivity; try congruence; try discriminate;
    do 3 eexists; repeat split.
Qed.

(** X19: the feedback tells the kind of the failure: two failures for
    which [getPrereqFailureFeedback] returns the same feedback took the
    same branch, the first of missing starter code, bad import and global
    code that applies. *)
Theorem getPrereqFailureFeedback_tells_kind
    (failure1 failure2 : PrereqCheckFailure) (feedback : Feedback) :
  getPrereqFailureFeedback (Some failure1) = Ok feedback ->
  getPrereqFailureFeedback (Some failure2) = Ok feedback ->
  prereqBranch failure1 = prereqBranch failure2.
Proof.
  unfold prereqBranch, getPrereqFailureFeedback.
  destruct (isMissingStarterCode failure1), (isBadImport failure1),
    (hasGlobalCode failure1),
    (isMissingStarterCode failure2), (isBadImport failure2),
    (hasGlobalCode failure2);
    intros H1 H2; try reflexivity; try discriminate;
    rewrite <- H1 in H2; discriminate H2.
Qed.

(** ** The printed form of an integer *)

Lemma has_raw_control_of_uint (d : Decimal.uint) :
  has_raw_control (NilEmpty.string_of_uint d) = false.
Proof.
  induction d; simpl; auto.
Qed.

Lemma has_raw_control_of_uint0 (d : Decimal.uint) :
  has_raw_control (NilZero.string_of_uint d) = false.
Proof.
  destruct d; [reflexivity | ..];
    match goal with
    | |- has_raw_control (NilZero.string_of_uint ?x) = false =>
        exact (has_raw_control_of_uint x)
    end.
Qed.

Lemma String_of_Z_single_line (n : Z) :
  has_raw_control (String_of_Z n) = false.
Proof.
  unfold String_of_Z.
  destruct n as [|p|p]; cbn [Z.to_int NilZero.string_of_int].
  - reflexivity.
  - apply has_raw_control_of_uint0.
  - cbn [has_raw_control]. apply has_raw_control_of_uint0.
Qed.

End Tie.

Arguments JNull {number}.
Arguments JUndefined {number}.
Arguments JStr {number} s.
Arguments JNum {number} n.
Arguments JBool {number} b.
Arguments JArr {number} elements.
Arguments JObj {number} entries.
Arguments JFunction {number} name.
Arguments JSymbol {number} description.
Arguments JBigInt {number} n.
Arguments recognized {number} value.
Arguments getInput {number} c.
Arguments getAllowedOutputs {number} c.
Arguments getBuggyOutputTests {number} t.
Arguments getCorrectnessTests {number} t.
Arguments getPerformanceTests {number} t.
Arguments getOutputFunctionNameWithoutClass {number} t.
Arguments getErrorString {number} c.
Arguments getErrorInput {number} c.
Arguments getPreprocessedCode {number} c.
Arguments getBuggyOutputTestResults {number} c.
Arguments getCorrectnessTestResults {number} c.
Arguments getPerformanceTestResults {number} c.
Arguments Snapshot_getCodeEvalResult {number} s.
Arguments Snapshot_getFeedback {number} s.
Arguments _getBuggyOutputTestFeedback {number} lastSnapshot failingTest
  codeEvalResult.
Arguments BuggyRef {number} i j test.
Arguments CorrectnessRef {number} i j task test.
Arguments PerformanceRef {number} i j test.
Arguments scan_order {number} tasks.
Arguments is_buggy_ref {number} ref.
Arguments test_fails {number} outputsMatch codeEvalResult ref.
Arguments getLineNumber {number} t.
Arguments getColumnNumber {number} t.
Arguments _errorMessage {number} e.
Arguments _tracebackCoordinates {number} e.
Arguments lineno {number} s.
Arguments colno {number} s.
Arguments SkulptError_toString {number} s.
Arguments traceback {number} s.
Arguments fromSkulptError {number} skulptError.
Arguments hintSession {number} failingTest lastSnapshot submissions.
Arguments code_changes {number} previousCode submissions.

(** * Worked inputs *)

(** The definitions above at integer numbers, with a time limit of three
    seconds, outputs compared as strings, and the first allowed output
    shown as the example. *)
Module Samples.

Definition outputsMatch (allowedOutput observedOutput : jsval Z) : bool :=
  match allowedOutput, observedOutput with
  | JStr a, JStr b => String.eqb a b
  | _, _ => false
  end.

Definition getAnyAllowedOutput (test : CorrectnessTest Z) : jsval Z :=
  hd (JUndefined) (getAllowedOutputs test).

Definition select :=
  _getFeedbackWithoutReinforcement Z String_of_Z 3 outputsMatch
    getAnyAllowedOutput.

Definition feedbackFor :=
  feedback_for Z String_of_Z getAnyAllowedOutput.

Definition forgetLastWord : BuggyOutputTest :=
  {| getMessages := ["h0"; "h1"] |}.

Definition reversesWords : CorrectnessTest Z :=
  {| getInput := JStr "moo cow bark dog";
     getAllowedOutputs := [JStr "oom woc krab god"] |}.

Definition runsLinear : PerformanceTest :=
  {| getExpectedPerformance := "linear" |}.

Definition task1 : Task Z :=
  {| getBuggyOutputTests := [];
     getCorrectnessTests := [reversesWords];
     getPerformanceTests := [];
     getOutputFunctionNameWithoutClass := None |}.

Definition task2 : Task Z :=
  {| getBuggyOutputTests := [forgetLastWord];
     getCorrectnessTests := [];
     getPerformanceTests := [runsLinear];
     getOutputFunctionNameWithoutClass := None |}.

Definition tasks : list (Task Z) := [task1; task2].

Definition evaluated (code : string) (buggy : list (list bool))
    (outputs : list (list (jsval Z))) (performance : list (list string))
    : CodeEvalResult Z :=
  {| getErrorString := None;
     getErrorInput := JNull;
     getPreprocessedCode := code;
     getBuggyOutputTestResults := buggy;
     getCorrectnessTestResults := outputs;
     getPerformanceTestResults := performance |}.

(** Task 1 fails its correctness test and task 2 matches the buggy
    implementation. *)
Definition wrongThenBuggy : CodeEvalResult Z :=
  evaluated "S1" [[]; [true]] [[JStr "moo cow bark dog"]; []]
    [[]; ["linear"]].

(** Task 1 passes and task 2 matches the buggy implementation. *)
Definition buggyOnly (code : string) : CodeEvalResult Z :=
  evaluated code [[]; [true]] [[JStr "oom woc krab god"]; []]
    [[]; ["linear"]].

(** Everything passes but the performance test of task 2. *)
Definition slowOnly : CodeEvalResult Z :=
  evaluated "S1" [[]; [false]] [[JStr "oom woc krab god"]; []]
    [[]; ["quadratic"]].

Definition failed (errorString : string) : CodeEvalResult Z :=
  {| getErrorString := Some errorString;
     getErrorInput := JArr [JStr "moo"; JNum 3];
     getPreprocessedCode := "S1";
     getBuggyOutputTestResults := [];
     getCorrectnessTestResults := [];
     getPerformanceTestResults := [] |}.

(** The feedback that shows one hint, and the snapshot a submission leaves
    when the buggy implementation was recognised and answered by
    [feedback]. *)
Definition hintFeedback (text : string) (hintIndex : Z) : Feedback :=
  {| getParagraphs :=
       [{| getType := PARAGRAPH_TYPE_TEXT; getContent := Some text |}];
     isAnswerCorrect := false;
     getHintIndex := Some hintIndex |}.

Definition after (code : string) (feedback : Feedback) : Snapshot Z :=
  {| Snapshot_getCodeEvalResult := Some (buggyOnly code);
     Snapshot_getFeedback := feedback |}.

(** The snapshot left by a first submission [S1] that was given hint 0. *)
Definition hinted : Snapshot Z := after "S1" (hintFeedback "h0" 0).

(** Seven preprocessed lines, the last one belonging to the test code. *)
Definition lineMap : list (option Z) :=
  [Some 0; Some 1; Some 2; Some 3; Some 4; Some 5; None].

Definition zeroDivision : ErrorTraceback Z :=
  {| _errorMessage := "ZeroDivisionError: integer division or modulo by zero";
     _tracebackCoordinates :=
       [{| getLineNumber := 5; getColumnNumber := 1 |};
        {| getLineNumber := 9; getColumnNumber := 4 |}] |}.

Definition nested : jsval Z :=
  JArr
    [JNull; JStr (String tab (String newline "x")); JNum 12;
     JBool true;
     JObj [("k", JArr [JBool false]); ("m", JUndefined)]].


(** A sequence whose mapping holds a function. *)
Definition withFunction : jsval Z :=
  JArr [JStr "a"; JObj [("key", JFunction "compare")]].

(** Tasks evaluated without any result row. *)
Definition noRows : CodeEvalResult Z := evaluated "S1" [] [] [].

(** Two more submissions that match the buggy implementation. *)
Definition laterAttempts : list (CodeEvalResult Z) :=
  [buggyOnly "S2"; buggyOnly "S3"].

Definition skulptZeroDivision : SkulptError Z :=
  {| SkulptError_toString :=
       "ZeroDivisionError: integer division or modulo by zero on line 5";
     traceback :=
       [{| lineno := 5; colno := 1 |}; {| lineno := 9; colno := 4 |}] |}.

Definition skulptTimeLimit : SkulptError Z :=
  {| SkulptError_toString := "TimeLimitError: Program exceeded run time limit.";
     traceback := [] |}.

Definition timeLimit : ErrorTraceback Z :=
  {| _errorMessage := "TimeLimitError: Program exceeded run time limit.";
     _tracebackCoordinates := [] |}.

Definition noCoordinates : ErrorTraceback Z :=
  {| _errorMessage := "KeyError: k"; _tracebackCoordinates := [] |}.

Definition onLineSeven : ErrorTraceback Z :=
  {| _errorMessage := "KeyError: k";
     _tracebackCoordinates :=
       [{| getLineNumber := 7; getColumnNumber := 2 |}] |}.

Definition reinforce (task : Task Z) (r : CodeEvalResult Z) : nat :=
  length (getCorrectnessTests task).

Definition getFeedbackZ :=
  getFeedback Z String_of_Z 3 outputsMatch getAnyAllowedOutput nat reinforce.

Definition allPass : CodeEvalResult Z :=
  evaluated "S1" [[]; [false]] [[JStr "oom woc krab god"]; []]
    [[]; ["linear"]].

Definition supportedLibs : list string := ["collections"; "math"].

Definition missingStarterCode : PrereqCheckFailure :=
  {| isMissingStarterCode := true; isBadImport := false;
     hasGlobalCode := false; getStarterCode := "def reverseWords(s):";
     getBadImports := [] |}.

Definition badImport : PrereqCheckFailure :=
  {| isMissingStarterCode := false; isBadImport := true;
     hasGlobalCode := false; getStarterCode := "";
     getBadImports := ["numpy"; "pandas"] |}.

(** The same imports in a failure that also answers yes to the question
    for global code. *)
Definition badImportAndGlobalCode : PrereqCheckFailure :=
  {| isMissingStarterCode := false; isBadImport := true;
     hasGlobalCode := true; getStarterCode := "def reverseWords(s):";
     getBadImports := ["numpy"; "pandas"] |}.

End Samples.

Lemma selection_reports_first_failing_witness :
  Samples.select None Samples.tasks Samples.slowOnly []
  = Samples.feedbackFor None Samples.slowOnly
      (PerformanceRef 1 0 Samples.runsLinear).
Proof.
  apply (selection_reports_first_failing Z String_of_Z 3
           Samples.outputsMatch Samples.getAnyAllowedOutput
           None Samples.tasks Samples.slowOnly []
           [CorrectnessRef 0 0 Samples.task1 Samples.reversesWords;
            BuggyRef 1 0 Samples.forgetLastWord]
           []).
  - reflexivity.
  - reflexivity.
  - repeat constructor.
  - reflexivity.
Defined.

(** C3 as stated fails: task 2 matches the buggy implementation, yet the
    feedback is the one for the correctness test of task 1, and it is the
    feedback of no buggy-output test. *)
Lemma later_buggy_test_is_outranked :
  truthy (getErrorString Samples.wrongThenBuggy) = false /\
  In (BuggyRef 1 0 Samples.forgetLastWord) (scan_order Samples.tasks) /\
  test_fails Samples.outputsMatch Samples.wrongThenBuggy
    (BuggyRef 1 0 Samples.forgetLastWord) = Ok true /\
  Samples.select None Samples.tasks Samples.wrongThenBuggy []
  = Samples.feedbackFor None Samples.wrongThenBuggy
      (CorrectnessRef 0 0 Samples.task1 Samples.reversesWords) /\
  ~ (exists reported,
       In reported (scan_order Samples.tasks) /\
       is_buggy_ref reported = true /\
       Samples.select None Samples.tasks Samples.wrongThenBuggy []
       = Samples.feedbackFor None Samples.wrongThenBuggy reported).
Proof.
  repeat split.
  - right. left. reflexivity.
  - intros (reported & Hin & Hbuggy & Heq).
    destruct Hin as [<- | [<- | [<- | []]]]; try discriminate Hbuggy.
    vm_compute in Heq. discriminate Heq.
Qed.

Lemma buggy_reported_when_scanned_first_witness :
  exists reported,
    In reported (scan_order Samples.tasks) /\
    is_buggy_ref reported = true /\
    test_fails Samples.outputsMatch (Samples.buggyOnly "S1") reported
    = Ok true /\
    Samples.select None Samples.tasks (Samples.buggyOnly "S1") []
    = Samples.feedbackFor None (Samples.buggyOnly "S1") reported.
Proof.
  apply (buggy_reported_when_scanned_first Z String_of_Z 3
           Samples.outputsMatch Samples.getAnyAllowedOutput
           None Samples.tasks (Samples.buggyOnly "S1") []
           [CorrectnessRef 0 0 Samples.task1 Samples.reversesWords]
           [PerformanceRef 1 0 Samples.runsLinear]
           (BuggyRef 1 0 Samples.forgetLastWord)).
  - reflexivity.
  - reflexivity.
  - reflexivity.
  - reflexivity.
  - constructor; [|constructor].
    exists false. split; [reflexivity | discriminate].
Defined.

Lemma error_string_decides_feedback_witness :
  Samples.select None Samples.tasks
    (Samples.failed "TimeLimitError: Program exceeded run time limit.") []
  = Ok (_getTimeoutErrorFeedback Z String_of_Z 3 tt).
Proof.
  refine (proj1 (error_string_decides_feedback Z String_of_Z 3
                   Samples.outputsMatch Samples.getAnyAllowedOutput
                   None Samples.tasks
                   (Samples.failed
                      "TimeLimitError: Program exceeded run time limit.")
                   [] "TimeLimitError: Program exceeded run time limit."
                   _ _) _).
  - reflexivity.
  - discriminate.
  - reflexivity.
Defined.

Lemma hint_index_kept_on_same_code_witness :
  exists feedback,
    _getBuggyOutputTestFeedback (Some Samples.hinted)
      Samples.forgetLastWord (Samples.buggyOnly "S1") = Ok feedback /\
    getHintIndex feedback = Some 0.
Proof.
  apply (hint_index_kept_on_same_code Z Samples.hinted
           (Samples.buggyOnly "S1") Samples.forgetLastWord
           (Samples.buggyOnly "S1") 0
           {| getType := PARAGRAPH_TYPE_TEXT; getContent := Some "h0" |} []);
    reflexivity.
Defined.

Lemma hint_index_advances_on_new_code_witness :
  exists feedback,
    _getBuggyOutputTestFeedback (Some Samples.hinted)
      Samples.forgetLastWord (Samples.buggyOnly "S2") = Ok feedback /\
    getHintIndex feedback = Some 1.
Proof.
  apply (hint_index_advances_on_new_code Z Samples.hinted
           (Samples.buggyOnly "S1") Samples.forgetLastWord
           (Samples.buggyOnly "S2") 0
           {| getType := PARAGRAPH_TYPE_TEXT; getContent := Some "h0" |} []);
    try reflexivity.
  discriminate.
Defined.

Lemma hint_index_starts_at_zero_witness :
  exists feedback,
    _getBuggyOutputTestFeedback None Samples.forgetLastWord
      (Samples.buggyOnly "S1") = Ok feedback /\
    getHintIndex feedback = Some 0.
Proof.
  apply (hint_index_starts_at_zero Z None Samples.forgetLastWord
           (Samples.buggyOnly "S1")).
  left. reflexivity.
Defined.

Lemma jsToHumanReadable_renders_witness :
  recognized Samples.nested = true /\
  _jsToHumanReadable Z String_of_Z Samples.nested
  = Ok (toDisplayString Z String_of_Z Samples.nested).
Proof.
  split; [reflexivity|].
  apply (jsToHumanReadable_renders Z String_of_Z Samples.nested).
  reflexivity.
Defined.

Lemma runtime_error_line_is_remapped_witness :
  _getRuntimeErrorFeedback Z String_of_Z
    (Samples.failed "ZeroDivisionError: division by zero on line 7")
    Samples.lineMap
  = Ok (runtimeErrorFeedback
          (toDisplayString Z String_of_Z
             (getErrorInput (Samples.failed "")))
          "ZeroDivisionError: division by zero on a line in the test code").
Proof.
  refine (proj1 (runtime_error_line_is_remapped Z String_of_Z
                   (Samples.failed
                      "ZeroDivisionError: division by zero on line 7")
                   Samples.lineMap
                   "ZeroDivisionError: division by zero on " "7" _ _ _)
            _ _ _).
  - reflexivity.
  - discriminate.
  - reflexivity.
  - reflexivity.
  - reflexivity.
Defined.

Lemma getErrorString_appends_first_line_witness :
  ErrorTraceback_getErrorString Z String_of_Z Samples.zeroDivision
  = Ok "ZeroDivisionError: integer division or modulo by zero on line 5".
Proof.
  apply (proj2 (getErrorString_appends_first_line Z String_of_Z
                  Samples.zeroDivision)
           {| getLineNumber := 5; getColumnNumber := 1 |}
           [{| getLineNumber := 9; getColumnNumber := 4 |}]);
    reflexivity.
Defined.

(** * The hint sequence of the specification's example

    Hints [h0; h1]: a first submission [S1] gets hint 0; a second one with
    another source gets hint 1; a third one with yet another source stays
    at hint 1. *)

Example hints_escalate_then_stay :
  Samples.select None Samples.tasks (Samples.buggyOnly "S1") []
  = Ok (Samples.hintFeedback "h0" 0) /\
  Samples.select (Some (Samples.after "S1" (Samples.hintFeedback "h0" 0))) Samples.tasks
    (Samples.buggyOnly "S2") []
  = Ok (Samples.hintFeedback "h1" 1) /\
  Samples.select (Some (Samples.after "S2" (Samples.hintFeedback "h1" 1))) Samples.tasks
    (Samples.buggyOnly "S3") []
  = Ok (Samples.hintFeedback "h1" 1) /\
  Samples.select (Some (Samples.after "S2" (Samples.hintFeedback "h1" 1))) Samples.tasks
    (Samples.buggyOnly "S2") []
  = Ok (Samples.hintFeedback "h1" 1).
Proof.
  repeat split.
Qed.

(** A tab and a newline inside a string come out as two characters each. *)
Example tab_and_newline_are_escaped :
  _jsToHumanReadable Z String_of_Z
    (JStr (String tab (String newline "x")))
  = Ok (String dquote ("\t\nx" ++ String dquote "")).
Proof.
  reflexivity.
Qed.

(** Line 0 has no entry in the line map. *)
Example line_zero_is_out_of_range :
  _getRuntimeErrorFeedback Z String_of_Z
    (Samples.failed "KeyError: k on line 0") Samples.lineMap
  = Throw (Error "Line number index out of range: -1").
Proof.
  reflexivity.
Qed.

(** * Worked inputs for the further properties *)

Lemma jsToHumanReadable_fails_on_nested_unrecognized_witness :
  _jsToHumanReadable Z String_of_Z Samples.withFunction
  = Throw (Error "Could not make the following object human-readable: ").
Proof.
  apply (jsToHumanReadable_fails_on_nested_unrecognized Z String_of_Z
           Samples.withFunction).
  reflexivity.
Defined.

Lemma jsToHumanReadable_is_single_line_witness :
  has_raw_control (toDisplayString Z String_of_Z Samples.nested) = false.
Proof.
  apply (jsToHumanReadable_is_single_line Z String_of_Z Samples.nested).
  - exact String_of_Z_single_line.
  - reflexivity.
Defined.

Lemma all_tests_pass_completes_witness :
  Samples.select None Samples.tasks Samples.allPass [] = Ok completedFeedback
  /\ isAnswerCorrect completedFeedback = true.
Proof.
  apply (all_tests_pass_completes Z String_of_Z 3 Samples.outputsMatch
           Samples.getAnyAllowedOutput None Samples.tasks Samples.allPass []).
  - reflexivity.
  - repeat constructor.
Defined.

Lemma completion_flag_is_sound_witness :
  completedFeedback = completedFeedback /\
  truthy (getErrorString Samples.allPass) = false /\
  Forall (fun ref => test_fails Samples.outputsMatch Samples.allPass ref
                     = Ok false)
         (scan_order Samples.tasks).
Proof.
  apply (completion_flag_is_sound Z String_of_Z 3 Samples.outputsMatch
           Samples.getAnyAllowedOutput None Samples.tasks Samples.allPass []
           completedFeedback).
  - reflexivity.
  - reflexivity.
Defined.

Lemma missing_result_row_throws_witness :
  Samples.select None Samples.tasks Samples.noRows [] = Throw TypeError.
Proof.
  apply (missing_result_row_throws Z String_of_Z 3 Samples.outputsMatch
           Samples.getAnyAllowedOutput None Samples.tasks Samples.noRows []
           []
           [BuggyRef 1 0 Samples.forgetLastWord;
            PerformanceRef 1 0 Samples.runsLinear]
           (CorrectnessRef 0 0 Samples.task1 Samples.reversesWords)).
  - reflexivity.
  - reflexivity.
  - constructor.
  - reflexivity.
Defined.

Lemma hint_shown_is_hint_at_index_witness :
  exists hintIndex hint,
    getHintIndex (Samples.hintFeedback "h1" 1) = Some hintIndex /\
    0 <= hintIndex < len (getMessages Samples.forgetLastWord) /\
    at_index (getMessages Samples.forgetLastWord) hintIndex = Some hint /\
    getParagraphs (Samples.hintFeedback "h1" 1)
    = [{| getType := PARAGRAPH_TYPE_TEXT; getContent := Some hint |}].
Proof.
  apply (hint_shown_is_hint_at_index Z (Some Samples.hinted)
           Samples.forgetLastWord (Samples.buggyOnly "S2")
           (Samples.hintFeedback "h1" 1)).
  - discriminate.
  - intros snapshot first others [= <-] [= <- _]. discriminate.
  - reflexivity.
Defined.

Lemma hint_session_escalates_witness :
  exists lastResult,
    hintSession Samples.forgetLastWord None
      (Samples.buggyOnly "S1" :: Samples.laterAttempts)
    = Ok (Some {| Snapshot_getCodeEvalResult := Some lastResult;
                  Snapshot_getFeedback :=
                    hintFeedbackAt (getMessages Samples.forgetLastWord)
                      (Z.min (len Samples.laterAttempts)
                         (len (getMessages Samples.forgetLastWord) - 1)) |}).
Proof.
  apply (hint_session_escalates Z Samples.forgetLastWord
           (Samples.buggyOnly "S1") Samples.laterAttempts).
  - discriminate.
  - reflexivity.
Defined.

Lemma runtime_error_without_line_reference_witness :
  _getRuntimeErrorFeedback Z String_of_Z (Samples.failed "KeyError: k") []
  = Ok (runtimeErrorFeedback
          (toDisplayString Z String_of_Z (getErrorInput (Samples.failed "")))
          "KeyError: k").
Proof.
  apply (runtime_error_without_line_reference Z String_of_Z
           (Samples.failed "KeyError: k") [] "KeyError: k").
  - reflexivity.
  - reflexivity.
  - apply no_line_reference. reflexivity.
Defined.

Lemma getErrorString_throws_without_coordinates_witness :
  ErrorTraceback_getErrorString Z String_of_Z Samples.noCoordinates
  = Throw TypeError.
Proof.
  apply (proj1 (getErrorString_throws_without_coordinates Z String_of_Z
                  Samples.noCoordinates)); reflexivity.
Defined.

Lemma fromSkulptError_cuts_at_on_line_witness :
  exists rest,
    SkulptError_toString Samples.skulptZeroDivision
    = _errorMessage (fromSkulptError Samples.skulptZeroDivision)
      ++ " on line" ++ rest /\
    Z.of_nat (String.length
                (_errorMessage (fromSkulptError Samples.skulptZeroDivision)))
    = indexOf (SkulptError_toString Samples.skulptZeroDivision) " on line".
Proof.
  apply (fromSkulptError_cuts_at_on_line Z Samples.skulptZeroDivision).
  vm_compute. discriminate.
Defined.

Lemma fromSkulptError_drops_last_character_witness :
  _errorMessage (fromSkulptError Samples.skulptTimeLimit)
  = "TimeLimitError: Program exceeded run time limit".
Proof.
  apply (fromSkulptError_drops_last_character Z Samples.skulptTimeLimit
           "TimeLimitError: Program exceeded run time limit" ".");
    reflexivity.
Defined.

Lemma skulpt_error_string_round_trip_witness :
  ErrorTraceback_getErrorString Z String_of_Z
    (fromSkulptError Samples.skulptZeroDivision)
  = Ok (SkulptError_toString Samples.skulptZeroDivision).
Proof.
  apply (skulpt_error_string_round_trip Z String_of_Z
           Samples.skulptZeroDivision
           "ZeroDivisionError: integer division or modulo by zero"
           {| lineno := 5; colno := 1 |} [{| lineno := 9; colno := 4 |}]);
    reflexivity.
Defined.

Lemma traceback_prefix_selects_feedback_witness :
  Samples.select None Samples.tasks
    (Samples.failed "TimeLimitError: Program exceeded run time limit.") []
  = Ok (_getTimeoutErrorFeedback Z String_of_Z 3 tt).
Proof.
  refine (proj1 (traceback_prefix_selects_feedback Z String_of_Z 3
                   Samples.outputsMatch Samples.getAnyAllowedOutput
                   Samples.timeLimit
                   "TimeLimitError: Program exceeded run time limit."
                   None Samples.tasks
                   (Samples.failed
                      "TimeLimitError: Program exceeded run time limit.")
                   [] _ _) _); reflexivity.
Defined.

Lemma traceback_line_is_remapped_witness :
  _getRuntimeErrorFeedback Z String_of_Z
    (Samples.failed "KeyError: k on line 7") Samples.lineMap
  = Ok (runtimeErrorFeedback
          (toDisplayString Z String_of_Z (getErrorInput (Samples.failed "")))
          "KeyError: k on a line in the test code").
Proof.
  apply (traceback_line_is_remapped Z String_of_Z Samples.onLineSeven
           {| getLineNumber := 7; getColumnNumber := 2 |} [] 7
           "KeyError: k on line 7"
           (toDisplayString Z String_of_Z (getErrorInput (Samples.failed "")))
           (Samples.failed "KeyError: k on line 7") Samples.lineMap);
    try reflexivity.
  lia.
Defined.

Lemma getFeedback_on_completion_witness :
  Samples.getFeedbackZ None Samples.tasks Samples.allPass []
  = Ok (completedFeedback, Some 0%nat).
Proof.
  apply (getFeedback_on_completion Z String_of_Z 3 Samples.outputsMatch
           Samples.getAnyAllowedOutput nat Samples.reinforce None
           Samples.tasks Samples.allPass []).
  - reflexivity.
  - repeat constructor.
Defined.

Lemma getFeedback_on_error_witness :
  Samples.getFeedbackZ None Samples.tasks
    (Samples.failed "TimeLimitError: Program exceeded run time limit.") []
  = Ok (_getTimeoutErrorFeedback Z String_of_Z 3 tt, None).
Proof.
  apply (getFeedback_on_error Z String_of_Z 3 Samples.outputsMatch
           Samples.getAnyAllowedOutput nat Samples.reinforce None
           Samples.tasks
           (Samples.failed
              "TimeLimitError: Program exceeded run time limit.") []).
  reflexivity.
Defined.

Lemma getPrereqFailureFeedback_tells_kind_witness :
  prereqBranch Samples.badImport
  = prereqBranch Samples.badImportAndGlobalCode.
Proof.
  eapply (getPrereqFailureFeedback_tells_kind Samples.supportedLibs
            Samples.badImport Samples.badImportAndGlobalCode);
    reflexivity.
Defined.
